(** * CustomBoxPlot: a shallow embedding of MatplotlibCustomPlot/CustomBoxPlot.py

    The development follows the Python source top to bottom:

    - Python values that reach [add_boxplot] and [__init__] ([pyobj]),
      with [isinstance] for the three element types the code tests;
    - the nested helper [convert2sequence];
    - the renderer object ([CustomBoxPlot]: the subplot handle and the
      two parallel tick lists) and a small state-and-exception monad;
    - [__init__] and [add_boxplot], the latter with its recursive
      per-row dispatch;
    - the properties of validation, broadcasting, drawing and tick
      registration.

    Conventions.  Python floats and numpy's float64 are binary64: the
    primitive floats, with their rounding, their infinities and NaN.
    The matplotlib surface is a recorder of the primitives it receives,
    and it may refuse one (a colour it does not know).  The four numpy
    reductions, the refusals of the surface and the figure's
    [add_subplot] are external and enter as parameters.  Arrays are of
    the base class numpy.ndarray. *)

From Stdlib Require Import List ZArith Bool String Ascii Lia.
From Stdlib Require Import Sorting.Sorted Sorting.Permutation.
From Stdlib Require Import Floats.PrimFloat.
From Stdlib Require Floats.SpecFloat Floats.FloatOps.
Import ListNotations.

Set Warnings "-register-all".

Local Open Scope string_scope.
Local Open Scope Z_scope.
Local Open Scope list_scope.

(** ** Exceptions *)

(** The classes of the exceptions that can leave the module. *)
Inductive pyclass : Type :=
| TypeError
| ValueError
| IndexError
| OverflowError
| RecursionError.

(** The element types handed to [convert2sequence]. *)
Inductive itype : Type :=
| int
| str
| bool_.

(** One constructor per [raise] site of the source, plus the implicit
    ones (indexing, argument unpacking, an [int] too large for a float
    operation, the interpreter's recursion limit) and [Foreign] for what
    numpy or matplotlib raise. *)
Inductive exn : Type :=
| DataNotArray
    (* TypeError('Parameter data is not an array') *)
| DataDimension (ndim : nat)
    (* ValueError('Parameter data must be 1 or 2-dimentionnal array ...') *)
| ParamLength (name : string) (ty : itype) (N len : nat)
    (* ValueError('Parameter {name} must be ... with length {N}, not length {len}.') *)
| ParamType (name : string) (ty : itype) (N : nat)
    (* TypeError('Parameter {name} must be a {itype} or sequence ...') *)
| OutOfRange
    (* IndexError of a subscript *)
| NotIterable
    (* TypeError of [*ax_location] on a non-iterable *)
| BadOperand
    (* TypeError of an operator applied to a value of the wrong type *)
| IntTooLarge
    (* OverflowError('int too large to convert to float') *)
| RecursionLimit
    (* RecursionError *)
| Foreign (c : pyclass) (origin : string).

Definition exn_class (e : exn) : pyclass :=
  match e with
  | DataNotArray => TypeError
  | DataDimension _ => ValueError
  | ParamLength _ _ _ _ => ValueError
  | ParamType _ _ _ => TypeError
  | OutOfRange => IndexError
  | NotIterable => TypeError
  | BadOperand => TypeError
  | IntTooLarge => OverflowError
  | RecursionLimit => RecursionError
  | Foreign c _ => c
  end.

(** The error taxonomy of the specification. *)
Inductive spec_error : Type :=
| InvalidArgument
| InvalidShape
| InvalidLength.

(** Which documented error a [raise] statement of [add_boxplot] stands
    for; the implicit exceptions stand for none. *)
Definition taxonomy (e : exn) : option spec_error :=
  match e with
  | DataNotArray => Some InvalidArgument
  | ParamType _ _ _ => Some InvalidArgument
  | DataDimension _ => Some InvalidShape
  | ParamLength _ _ _ _ => Some InvalidLength
  | _ => None
  end.

Inductive outcome (A : Type) : Type :=
| Return (a : A)
| Raise (e : exn).
Arguments Return {A} a.
Arguments Raise {A} e.

(** ** Numbers and arrays *)

(** A Python float, and a numpy.float64, is a binary64: [float] is the
    type of the primitive floats, whose operations round to nearest,
    ties to even, as the hardware does. *)

(** [float(z)]: the binary64 nearest to the integer [z], ties to even,
    and an infinity when that is beyond the largest float. *)
Definition float_of_int (z : Z) : float :=
  FloatOps.SF2Prim
    (SpecFloat.binary_normalize FloatOps.prec FloatOps.emax z 0 false).

(** An [int] operand of a float operation is converted first; Python
    raises OverflowError when it is too large for a float. *)
Definition of_int (z : Z) : outcome float :=
  let x := float_of_int z in
  if is_infinity x then Raise IntTooLarge else Return x.

Definition fadd (a b : float) : float := (a + b)%float.

Definition fsub (a b : float) : float := (a - b)%float.

(** The literals 0.1 and 0.2 of the source: the floats nearest to one
    tenth and to two tenths. *)
Definition f0_1 : float := 0x1.999999999999ap-4%float.
Definition f0_2 : float := 0x1.999999999999ap-3%float.

(** numpy.ndarray of floats, of the base class: a shape and the
    elements in row-major order.  (A numpy.matrix, whose rows are
    matrices again, is not modelled.) *)
Record ndarray : Type := mk_ndarray {
  shape : list nat;
  flat : list float
}.

Definition ndim (a : ndarray) : nat := List.length (shape a).

Definition size_of (sh : list nat) : nat := fold_right Nat.mul 1%nat sh.

(** [a[index]] along the first axis: for a 2-D array, [data[index,:]]. *)
Definition subarray (a : ndarray) (index : nat) : ndarray :=
  let sh := tl (shape a) in
  let n := size_of sh in
  {| shape := sh; flat := firstn n (skipn (index * n) (flat a)) |}.

(** ** Python values *)

Inductive pyobj : Type :=
| PNone
| PBool (b : bool)
| PInt (z : Z)
| PFloat (x : float)
| PStr (s : string)
| PList (items : list pyobj)
| PTuple (items : list pyobj)
| PArray (a : ndarray).

(** [isinstance(value, itype)] for the three types the source passes;
    [bool] is a subclass of [int]. *)
Definition isinstance (value : pyobj) (ty : itype) : bool :=
  match ty, value with
  | int, PInt _ => true
  | int, PBool _ => true
  | str, PStr _ => true
  | bool_, PBool _ => true
  | _, _ => false
  end.

(** The characters of a string, each a string of length one. *)
Definition chars (s : string) : list pyobj :=
  map (fun c => PStr (String c EmptyString)) (list_ascii_of_string s).

(** [isinstance(value, Sequence)] together with the items that [len]
    and subscripting then see: lists, tuples and strings are Sequences,
    an ndarray is not. *)
Definition seq_items (value : pyobj) : option (list pyobj) :=
  match value with
  | PList items => Some items
  | PTuple items => Some items
  | PStr s => Some (chars s)
  | _ => None
  end.

(** [copy.deepcopy] on immutable model values. *)
Definition deepcopy (value : pyobj) : pyobj := value.

(** Lines 140-141: [if label is None: label = copy.deepcopy(position)]. *)
Definition label_or_position (label position : pyobj) : pyobj :=
  match label with
  | PNone => deepcopy position
  | _ => label
  end.

(** [value[index]] on a normalised parameter. *)
Definition getitem (l : list pyobj) (index : nat) : outcome pyobj :=
  match nth_error l index with
  | Some v => Return v
  | None => Raise OutOfRange
  end.

(** The integer an [int] instance denotes ([True] is 1). *)
Definition int_value (v : pyobj) : outcome Z :=
  match v with
  | PInt z => Return z
  | PBool b => Return (Z.b2z b)
  | _ => Raise BadOperand
  end.

Definition str_value (v : pyobj) : outcome string :=
  match v with
  | PStr s => Return s
  | _ => Raise BadOperand
  end.

Definition bool_value (v : pyobj) : outcome bool :=
  match v with
  | PBool b => Return b
  | _ => Raise BadOperand
  end.

(** Iteration, as [*ax_location] performs it. *)
Definition unpack (v : pyobj) : outcome (list pyobj) :=
  match v with
  | PList items => Return items
  | PTuple items => Return items
  | PStr s => Return (chars s)
  | PArray a =>
      match shape a with
      | [] => Raise NotIterable
      | [n] => Return (map PFloat (firstn n (flat a)))
      | n :: _ => Return (map (fun i => PArray (subarray a i)) (seq 0 n))
      end
  | _ => Raise NotIterable
  end.

(** ** convert2sequence *)

Definition convert2sequence (value : pyobj) (N : nat) (name : string)
    (ty : itype) : outcome (list pyobj) :=
  if isinstance value ty then
    Return (repeat value N)
  else
    match seq_items value with
    | Some items =>
        if negb (List.length items =? N)%nat then
          Raise (ParamLength name ty N (List.length items))
        else if forallb (fun v => isinstance v ty) items then
          Return items
        else
          Raise (ParamType name ty N)
    | None => Raise (ParamType name ty N)
    end.

(** What a numpy reduction does on a slice: it returns a float or
    raises an exception of its own. *)
Inductive reduced : Type :=
| Value (x : float)
| Fails (c : pyclass) (origin : string).

Definition of_reduced (r : reduced) : outcome float :=
  match r with
  | Value x => Return x
  | Fails c origin => Raise (Foreign c origin)
  end.

(** The numpy the module imports, as far as it uses it:
    [numpy.nanmean], [numpy.nanstd], [numpy.nanmin] and [numpy.nanmax]
    on the elements of a one-dimensional array. *)
Class Reductions : Type := {
  nanmean : list float -> reduced;
  nanstd : list float -> reduced;
  nanmin : list float -> reduced;
  nanmax : list float -> reduced
}.

(** ** The surface and the renderer object *)

(** An x coordinate as the source passes it: [position[0]] itself, an
    [int] (a [bool] by its integer value), or the float that
    [position[0] - 0.1] and the like give. *)
Inductive coord : Type :=
| at_int (z : Z)
| at_float (x : float).

(** The primitives the class issues to its axes.  Every argument is
    kept as the source computes it; [mean_2f] is the float that the
    text shows with two decimals. *)
Inductive call : Type :=
| add_patch_Rectangle (x y width height : float) (fill : bool)
    (edgecolor : string) (linewidth : Z)
| plot (x0 x1 : coord) (y0 y1 : float) (color : string) (lw : Z)
| text (x y : float) (mean_2f : float) (color : string)
| set_xticks (ticks : list Z)
| set_xticklabels (labels : list string).

Definition is_tick_call (c : call) : bool :=
  match c with
  | set_xticks _ | set_xticklabels _ => true
  | _ => false
  end.

(** The axes returned by [figure.add_subplot]: the primitives received
    so far, oldest first. *)
Definition axes : Type := list call.

(** The matplotlib the module draws on, as far as a primitive can fail:
    [Rectangle], [ax.plot] and [ax.text] raise on an argument they do
    not take (a colour matplotlib does not know raises ValueError), and
    the primitive is then not added; the tick setters take any list of
    positions and any list of labels. *)
Class Surface : Type := {
  refuses : call -> option (pyclass * string);
  ticks_accepted : forall c, is_tick_call c = true -> refuses c = None
}.

(** A figure-like object: whatever has an [add_subplot] method. *)
Record Figure : Type := {
  add_subplot : list pyobj -> outcome axes
}.

(** The instance: its axes and the two tick lists.  A position is kept
    by its integer value ([True] is 1 for [in] and for numpy alike); a
    label is a string by the time it is appended. *)
Record CustomBoxPlot : Type := mk_CustomBoxPlot {
  ax : axes;
  current_positions : list Z;
  current_ticklabels : list string
}.

(** State and exceptions: a raise keeps the mutations made before it. *)
Definition M (A : Type) : Type := CustomBoxPlot -> outcome A * CustomBoxPlot.

Definition ret {A} (a : A) : M A := fun self => (Return a, self).

Definition raise {A} (e : exn) : M A := fun self => (Raise e, self).

Definition bind {A B} (m : M A) (k : A -> M B) : M B :=
  fun self =>
    match m self with
    | (Return a, self') => k a self'
    | (Raise e, self') => (Raise e, self')
    end.

Definition lift {A} (o : outcome A) : M A := fun self => (o, self).

Definition obind {A B} (o : outcome A) (k : A -> outcome B) : outcome B :=
  match o with
  | Return a => k a
  | Raise e => Raise e
  end.

Declare Scope py_scope.
Delimit Scope py_scope with py.
Notation "x <- m ;; k" := (bind m (fun x => k))
  (at level 61, m at next level, right associativity) : py_scope.
Notation "m ;; k" := (bind m (fun _ => k))
  (at level 61, right associativity) : py_scope.

(** [self.ax.<primitive>(...)]: the primitive reaches the axes, or
    matplotlib raises and the axes are as before. *)
Definition draw {matplotlib : Surface} (c : call) : M unit :=
  fun self =>
    match refuses c with
    | Some (cls, origin) => (Raise (Foreign cls origin), self)
    | None =>
        (Return tt,
         {| ax := ax self ++ [c];
            current_positions := current_positions self;
            current_ticklabels := current_ticklabels self |})
    end.

(** [self.current_positions.append(p)] *)
Definition append_position (p : Z) : M unit :=
  fun self =>
    (Return tt,
     {| ax := ax self;
        current_positions := current_positions self ++ [p];
        current_ticklabels := current_ticklabels self |}).

(** [self.current_ticklabels.append(l)] *)
Definition append_ticklabel (l : string) : M unit :=
  fun self =>
    (Return tt,
     {| ax := ax self;
        current_positions := current_positions self;
        current_ticklabels := current_ticklabels self ++ [l] |}).

Definition get : M CustomBoxPlot := fun self => (Return self, self).

(** [for index in range(N): body(index)] *)
Fixpoint for_each (indices : list nat) (body : nat -> M unit) : M unit :=
  match indices with
  | [] => ret tt
  | index :: rest => bind (body index) (fun _ => for_each rest body)
  end.

Definition for_range (N : nat) (body : nat -> M unit) : M unit :=
  for_each (seq 0 N) body.

(** ** numpy.argsort and fancy indexing *)

Fixpoint insert_index (keys : list Z) (i : nat) (sorted : list nat)
    : list nat :=
  match sorted with
  | [] => [i]
  | j :: rest =>
      if nth i keys 0 <=? nth j keys 0 then i :: sorted
      else j :: insert_index keys i rest
  end.

(** The indices that sort [keys] ascending.  numpy's default sort is not
    stable; on pairwise distinct keys, which is all the class ever
    sorts, every sort returns these indices. *)
Definition argsort (keys : list Z) : list nat :=
  fold_right (insert_index keys) [] (seq 0 (List.length keys)).

(** [numpy.array(values)[indices]] *)
Definition take {A} (d : A) (values : list A) (indices : list nat) : list A :=
  map (fun i => nth i values d) indices.

(** [x in self.current_positions] *)
Definition contains (x : Z) (l : list Z) : bool := existsb (Z.eqb x) l.

(** ** __init__ *)

(** [self.ax] is what [figure.add_subplot] returns on the unpacked
    [ax_location]; then the two empty lists. *)
Definition init (figure : Figure) (ax_location : pyobj)
    : outcome CustomBoxPlot :=
  obind (unpack ax_location) (fun coords =>
  obind (add_subplot figure coords) (fun handle =>
  Return {| ax := handle; current_positions := []; current_ticklabels := [] |})).

(** The default [ax_location=(1,1,1)]. *)
Definition default_ax_location : pyobj := PTuple [PInt 1; PInt 1; PInt 1].

(** ** add_boxplot *)

(** The arguments of [add_boxplot] besides [data]. *)
Record args : Type := mk_args {
  position : pyobj;
  label : pyobj;
  box_color : pyobj;
  average_color : pyobj;
  linewidth : pyobj;
  draw_whiskers : pyobj;
  draw_average : pyobj;
  print_average : pyobj
}.

(** The keyword defaults of the signature. *)
Definition with_defaults (position label : pyobj) : args :=
  {| position := position; label := label;
     box_color := PStr "black"; average_color := PStr "red";
     linewidth := PInt 2; draw_whiskers := PBool true;
     draw_average := PBool true; print_average := PBool false |}.

(** [data.shape[0]] *)
Definition shape0 (a : ndarray) : outcome nat :=
  match shape a with
  | [] => Raise OutOfRange
  | n :: _ => Return n
  end.

(** [value[0]] read at the type validation has established. *)
Definition first_as {A} (l : list pyobj) (as_ : pyobj -> outcome A)
    : outcome A :=
  obind (getitem l 0) as_.

Definition item0 {A} (l : list pyobj) (as_ : pyobj -> outcome A) : M A :=
  lift (first_as l as_).

Definition item (l : list pyobj) (index : nat) : M pyobj :=
  lift (getitem l index).

Section Renderer.

Context {numpy : Reductions} {matplotlib : Surface}.

Local Open Scope py_scope.

(** "Update ticks and ticklabels": the last block of [add_boxplot]. *)
Definition update_ticks (p : Z) (label : list pyobj) : M unit :=
  self <- get ;;
  if negb (contains p (current_positions self)) then
    append_position p ;;
    l <- item0 label str_value ;;
    append_ticklabel l ;;
    self <- get ;;
    let sorted_indices := argsort (current_positions self) in
    let sorted_positions := take 0 (current_positions self) sorted_indices in
    let sorted_ticklabels :=
      take ""%string (current_ticklabels self) sorted_indices in
    draw (set_xticks sorted_positions) ;;
    draw (set_xticklabels sorted_ticklabels)
  else ret tt.

(** The single-series part of [add_boxplot]: from "Computing stat
    values" to the tick update.  The subscripts [position[0]],
    [box_color[0]], ... are read once each, at their first use, and so
    is the conversion of [position[0]] to a float, which
    [position[0] - 0.1] makes first: it raises there or nowhere. *)
Definition draw_series (data : ndarray)
    (position label box_color average_color linewidth
     draw_whiskers draw_average print_average : list pyobj) : M unit :=
  mean <- lift (of_reduced (nanmean (flat data))) ;;
  std <- lift (of_reduced (nanstd (flat data))) ;;
  min_val <- lift (of_reduced (nanmin (flat data))) ;;
  max_val <- lift (of_reduced (nanmax (flat data))) ;;
  let center := mean in
  let box_start := fsub mean std in
  let box_end := fadd mean std in
  let whisker_min := min_val in
  let whisker_max := max_val in
  p <- item0 position int_value ;;
  x <- lift (of_int p) ;;
  bc <- item0 box_color str_value ;;
  lw <- item0 linewidth int_value ;;
  draw (add_patch_Rectangle (fsub x f0_1) box_start
          f0_2 (fsub box_end box_start) false bc lw) ;;
  dw <- item0 draw_whiskers bool_value ;;
  (if dw then
     draw (plot (at_int p) (at_int p) whisker_min box_start bc lw) ;;
     draw (plot (at_int p) (at_int p) box_end whisker_max bc lw) ;;
     draw (plot (at_float (fsub x f0_1)) (at_float (fadd x f0_1))
             whisker_min whisker_min bc lw) ;;
     draw (plot (at_float (fsub x f0_1)) (at_float (fadd x f0_1))
             whisker_max whisker_max bc lw)
   else ret tt) ;;
  da <- item0 draw_average bool_value ;;
  (if da then
     ac <- item0 average_color str_value ;;
     draw (plot (at_float (fsub x f0_1)) (at_float (fadd x f0_1))
             center center ac lw)
   else ret tt) ;;
  pa <- item0 print_average bool_value ;;
  (if pa then
     ac <- item0 average_color str_value ;;
     draw (text (fadd x f0_2) center mean ac)
   else ret tt) ;;
  update_ticks p label.

(** The body of [add_boxplot]; [self_add_boxplot] is the method itself,
    for the call on each row of a 2-D array. *)
Definition add_boxplot_body (self_add_boxplot : pyobj -> args -> M unit)
    (data : pyobj) (a : args) : M unit :=
  let label := label_or_position (label a) (position a) in
  match data with
  | PArray data =>
      if (3 <=? ndim data)%nat then raise (DataDimension (ndim data))
      else
        N <- lift (shape0 data) ;;
        position <- lift (convert2sequence (position a) N "position" int) ;;
        label <- lift (convert2sequence label N "label" str) ;;
        box_color <-
          lift (convert2sequence (box_color a) N "box_color" str) ;;
        average_color <-
          lift (convert2sequence (average_color a) N "average_color" str) ;;
        linewidth <-
          lift (convert2sequence (linewidth a) N "linewidth" int) ;;
        draw_whiskers <-
          lift (convert2sequence (draw_whiskers a) N "draw_whiskers" bool_) ;;
        draw_average <-
          lift (convert2sequence (draw_average a) N "draw_average" bool_) ;;
        print_average <-
          lift (convert2sequence (print_average a) N "print_average" bool_) ;;
        if (ndim data =? 2)%nat then
          for_range N (fun index =>
            p <- item position index ;;
            l <- item label index ;;
            bc <- item box_color index ;;
            ac <- item average_color index ;;
            lw <- item linewidth index ;;
            dw <- item draw_whiskers index ;;
            da <- item draw_average index ;;
            pa <- item print_average index ;;
            self_add_boxplot (PArray (subarray data index))
              (mk_args p l bc ac lw dw da pa))
        else
          draw_series data position label box_color average_color
            linewidth draw_whiskers draw_average print_average
  | _ => raise DataNotArray
  end.

(** [add_boxplot] with the number of frames the interpreter still
    grants: with none left Python raises RecursionError. *)
Fixpoint add_boxplot_rec (frames : nat) : pyobj -> args -> M unit :=
  match frames with
  | O => fun _ _ => raise RecursionLimit
  | S frames' => add_boxplot_body (add_boxplot_rec frames')
  end.

(** A call from outside.  The recursion is one level deep (a row of a
    2-D ndarray is 1-D), so two frames are all it ever uses; see
    [add_boxplot_frames]. *)
Definition add_boxplot : pyobj -> args -> M unit := add_boxplot_rec 2.

(** The renderers a program can hold: a constructed one, then any
    number of [add_boxplot] calls, whether they return or raise. *)
Inductive reachable : CustomBoxPlot -> Prop :=
| reachable_init figure ax_location self :
    init figure ax_location = Return self -> reachable self
| reachable_call self data a o self' :
    reachable self ->
    add_boxplot data a self = (o, self') ->
    reachable self'.

End Renderer.

(** ** Reference reductions

    The four NaN-skipping reductions in binary64, used to run the model
    on sample data.  The sums are taken from left to right; numpy adds
    in pairs, which can give another last bit on long or ill-conditioned
    data. *)
Module Numpy.

(** The items that are not NaN. *)
Definition not_nan (l : list float) : list float :=
  filter (fun x => negb (is_nan x)) l.

Definition sum (l : list float) : float := fold_left fadd l zero.

Definition count (l : list float) : float :=
  float_of_int (Z.of_nat (List.length l)).

(** The mean of no item is 0 / 0: NaN. *)
Definition mean (l : list float) : float := (sum l / count l)%float.

(** [numpy.fmin] and [numpy.fmax] of two floats: a NaN loses against a
    number. *)
Definition fmin (a b : float) : float :=
  if (a <=? b)%float || is_nan b then a else b.

Definition fmax (a b : float) : float :=
  if (b <=? a)%float || is_nan b then a else b.

(** An empty or all-NaN slice gives NaN (numpy warns and goes on). *)
Definition nanmean (l : list float) : reduced := Value (mean (not_nan l)).

(** The population standard deviation of the items that are not NaN. *)
Definition nanstd (l : list float) : reduced :=
  let xs := not_nan l in
  let m := mean xs in
  Value (sqrt (mean (map (fun x => ((x - m) * (x - m))%float) xs))).

(** [fmin] and [fmax] have no identity: reducing a zero-size array
    raises ValueError. *)
Definition nanmin (l : list float) : reduced :=
  match l with
  | [] => Fails ValueError "zero-size array to reduction operation fmin which has no identity"
  | x :: xs => Value (fold_left fmin xs x)
  end.

Definition nanmax (l : list float) : reduced :=
  match l with
  | [] => Fails ValueError "zero-size array to reduction operation fmax which has no identity"
  | x :: xs => Value (fold_left fmax xs x)
  end.

End Numpy.

Definition reference : Reductions :=
  {| nanmean := Numpy.nanmean; nanstd := Numpy.nanstd;
     nanmin := Numpy.nanmin; nanmax := Numpy.nanmax |}.

(** ** A reference matplotlib

    The surface: [Rectangle], [ax.plot] and [ax.text] raise ValueError
    on a colour that is not one of the names listed, a few of those
    matplotlib knows, and take everything else.  The figure:
    [Figure.add_subplot] returns a new subplot on the positional
    arguments its documentation gives a meaning to here - none, which
    stands for (1, 1, 1), and three ints nrows, ncols, index with
    [1 <= index <= nrows * ncols]; what it does on any other arguments
    is the parameter [other]. *)
Module Matplotlib.

Definition named_colors : list string :=
  ["black"; "red"; "blue"; "green"; "white"; "gray"; "orange"; "yellow";
   "cyan"; "magenta"].

Definition is_color_like (color : string) : bool :=
  existsb (String.eqb color) named_colors.

Definition check_color (color : string) : option (pyclass * string) :=
  if is_color_like color then None
  else Some (ValueError, "is not a valid value for color").

Definition refusal (c : call) : option (pyclass * string) :=
  match c with
  | add_patch_Rectangle _ _ _ _ _ edgecolor _ => check_color edgecolor
  | plot _ _ _ _ color _ => check_color color
  | text _ _ _ color => check_color color
  | set_xticks _ => None
  | set_xticklabels _ => None
  end.

Definition surface : Surface :=
  {| refuses := refusal;
     ticks_accepted := fun c =>
       match c return is_tick_call c = true -> refusal c = None with
       | set_xticks _ | set_xticklabels _ => fun _ => eq_refl
       | _ => fun H => False_ind _ (diff_false_true H)
       end |}.

Definition add_subplot (other : list pyobj -> outcome axes)
    (coords : list pyobj) : outcome axes :=
  match coords with
  | [] => Return []
  | [PInt nrows; PInt ncols; PInt index] =>
      if (0 <? nrows) && (0 <? ncols) && (1 <=? index)
         && (index <=? nrows * ncols)
      then Return []
      else other coords
  | _ => other coords
  end.

Definition figure (other : list pyobj -> outcome axes) : Figure :=
  Build_Figure (add_subplot other).

End Matplotlib.

(** The class over the reference reductions and the reference
    surface. *)
Definition run_add_boxplot : pyobj -> args -> M unit :=
  @add_boxplot reference Matplotlib.surface.

(** A figure to construct sample renderers on its subplot (1, 1, 1);
    what it answers elsewhere is not used. *)
Definition sample_figure : Figure :=
  Matplotlib.figure (fun _ => Raise (Foreign ValueError "add_subplot")).

(** [ax_location] is a tuple or a list of exactly three positive
    integers. *)
Definition positive_triple (ax_location : pyobj) : bool :=
  match seq_items ax_location with
  | Some [PInt nrows; PInt ncols; PInt index] =>
      (0 <? nrows) && (0 <? ncols) && (0 <? index)
  | _ => false
  end.

(** A new renderer on a fresh subplot. *)
Definition fresh : CustomBoxPlot :=
  {| ax := []; current_positions := []; current_ticklabels := [] |}.

(** One-dimensional array literal. *)
Definition array1 (l : list float) : pyobj :=
  PArray {| shape := [List.length l]; flat := l |}.

(** Two-dimensional array literal with [ncols] columns. *)
Definition array2 (ncols : nat) (rows : list (list float)) : pyobj :=
  PArray {| shape := [List.length rows; ncols];
            flat := List.concat rows |}.

(** ** Sample renderers

    Two samples, 1 and 3 (mean 2, deviation 1), drawn at positions 3,
    1 and 2 in turn on a new renderer, and at position 5 on another. *)
Definition samples : ndarray :=
  {| shape := [2%nat]; flat := [1; 3]%float |}.

Definition after_3 : CustomBoxPlot :=
  snd (run_add_boxplot (PArray samples) (with_defaults (PInt 3) (PStr "c")) fresh).

Definition after_3_1 : CustomBoxPlot :=
  snd (run_add_boxplot (PArray samples) (with_defaults (PInt 1) (PStr "a"))
         after_3).

Definition after_3_1_2 : CustomBoxPlot :=
  snd (run_add_boxplot (PArray samples) (with_defaults (PInt 2) (PStr "b"))
         after_3_1).

Definition at_5 : CustomBoxPlot :=
  snd (run_add_boxplot (PArray samples) (with_defaults (PInt 5) (PStr "a")) fresh).

(** ** The two phases of the body

    Lines 140-157 touch neither the surface nor the tick lists; they
    are gathered here as one pure step, and lines 159-215 as the
    second.  [add_boxplot_body_phases] shows that the body is the first
    followed by the second. *)

(** The eight normalised parameters, with their common length. *)
Record series : Type := mk_series {
  ser_N : nat;
  ser_position : list pyobj;
  ser_label : list pyobj;
  ser_box_color : list pyobj;
  ser_average_color : list pyobj;
  ser_linewidth : list pyobj;
  ser_draw_whiskers : list pyobj;
  ser_draw_average : list pyobj;
  ser_print_average : list pyobj
}.

Definition validate (data : pyobj) (a : args) : outcome (ndarray * series) :=
  let label := label_or_position (label a) (position a) in
  match data with
  | PArray data =>
      if (3 <=? ndim data)%nat then Raise (DataDimension (ndim data))
      else
        obind (shape0 data) (fun N =>
        obind (convert2sequence (position a) N "position" int) (fun position =>
        obind (convert2sequence label N "label" str) (fun label =>
        obind (convert2sequence (box_color a) N "box_color" str) (fun box_color =>
        obind (convert2sequence (average_color a) N "average_color" str) (fun average_color =>
        obind (convert2sequence (linewidth a) N "linewidth" int) (fun linewidth =>
        obind (convert2sequence (draw_whiskers a) N "draw_whiskers" bool_) (fun draw_whiskers =>
        obind (convert2sequence (draw_average a) N "draw_average" bool_) (fun draw_average =>
        obind (convert2sequence (print_average a) N "print_average" bool_) (fun print_average =>
        Return (data, mk_series N position label box_color average_color
                        linewidth draw_whiskers draw_average print_average))))))))))
  | _ => Raise DataNotArray
  end.

Section Phases.

Context {numpy : Reductions} {matplotlib : Surface}.

Local Open Scope py_scope.

(** One turn of the loop over the rows. *)
Definition row_call (self_add_boxplot : pyobj -> args -> M unit)
    (data : ndarray) (s : series) (index : nat) : M unit :=
  p <- item (ser_position s) index ;;
  l <- item (ser_label s) index ;;
  bc <- item (ser_box_color s) index ;;
  ac <- item (ser_average_color s) index ;;
  lw <- item (ser_linewidth s) index ;;
  dw <- item (ser_draw_whiskers s) index ;;
  da <- item (ser_draw_average s) index ;;
  pa <- item (ser_print_average s) index ;;
  self_add_boxplot (PArray (subarray data index))
    (mk_args p l bc ac lw dw da pa).

Definition dispatch (self_add_boxplot : pyobj -> args -> M unit)
    (data : ndarray) (s : series) : M unit :=
  if (ndim data =? 2)%nat then
    for_range (ser_N s) (row_call self_add_boxplot data s)
  else
    draw_series data
      (ser_position s) (ser_label s) (ser_box_color s) (ser_average_color s)
      (ser_linewidth s) (ser_draw_whiskers s) (ser_draw_average s)
      (ser_print_average s).

End Phases.

(** ** Predicates on renderers and on computations *)

(** The tick registry is well formed: parallel lists, no position
    twice. *)
Definition registry_ok (self : CustomBoxPlot) : Prop :=
  List.length (current_positions self) = List.length (current_ticklabels self)
  /\ NoDup (current_positions self).

(** The label registered for a position. *)
Fixpoint lookup (p : Z) (positions : list Z) (labels : list string)
    : option string :=
  match positions, labels with
  | q :: positions', l :: labels' =>
      if q =? p then Some l else lookup p positions' labels'
  | _, _ => None
  end.

Definition tick_label (self : CustomBoxPlot) (p : Z) : option string :=
  lookup p (current_positions self) (current_ticklabels self).

(** The tick locations, and the tick labels, the surface holds: those of
    the latest [set_xticks], [set_xticklabels] it received. *)
Fixpoint last_xticks (calls : list call) : option (list Z) :=
  match calls with
  | [] => None
  | c :: rest =>
      match last_xticks rest with
      | Some t => Some t
      | None => match c with set_xticks t => Some t | _ => None end
      end
  end.

Fixpoint last_xticklabels (calls : list call) : option (list string) :=
  match calls with
  | [] => None
  | c :: rest =>
      match last_xticklabels rest with
      | Some t => Some t
      | None => match c with set_xticklabels t => Some t | _ => None end
      end
  end.

(** The surface shows the registry, sorted: nothing registered yet, or
    the latest ticks pushed are the registered ones in the order
    [argsort] gives. *)
Definition synced (self : CustomBoxPlot) : Prop :=
  current_positions self = [] \/
  (last_xticks (ax self) =
     Some (take 0 (current_positions self) (argsort (current_positions self)))
   /\ last_xticklabels (ax self) =
     Some (take ""%string (current_ticklabels self)
             (argsort (current_positions self)))).

(** The exceptions no [raise] statement of the module produces: a
    subscript out of range, an operand of the wrong type, an [int] too
    large for a float, an exception of numpy or matplotlib. *)
Definition implicit (e : exn) : Prop :=
  match e with
  | OutOfRange | BadOperand | IntTooLarge | Foreign _ _ => True
  | _ => False
  end.

(** Whenever [position[0]] can be read, [label[0]] is a string. *)
Definition label_readable (position label : list pyobj) : Prop :=
  position <> [] -> exists l, first_as label str_value = Return l.

(** The registry of [self'] is that of [self] with further pairs after
    it. *)
Definition extends (self self' : CustomBoxPlot) : Prop :=
  exists positions labels,
    current_positions self' = current_positions self ++ positions /\
    current_ticklabels self' = current_ticklabels self ++ labels /\
    List.length positions = List.length labels.

(** [m] can return [a]. *)
Definition returns {A} (m : M A) (a : A) : Prop :=
  exists self self', m self = (Return a, self').

(** [m] keeps the renderer inside [P] and raises only exceptions in
    [E]. *)
Definition respects {A} (P : CustomBoxPlot -> Prop) (E : exn -> Prop)
    (m : M A) : Prop :=
  forall self o self',
    P self -> m self = (o, self') ->
    P self' /\ forall e, o = Raise e -> E e.

(** [P] survives the primitive [c]. *)
Definition stable (P : CustomBoxPlot -> Prop) (c : call) : Prop :=
  forall self,
    P self ->
    P {| ax := ax self ++ [c];
         current_positions := current_positions self;
         current_ticklabels := current_ticklabels self |}.

(** ** Naming one parameter *)

Inductive param : Type :=
| Pposition
| Plabel
| Pbox_color
| Paverage_color
| Plinewidth
| Pdraw_whiskers
| Pdraw_average
| Pprint_average.

(** The element type [add_boxplot] passes to [convert2sequence] for
    each parameter. *)
Definition param_type (k : param) : itype :=
  match k with
  | Pposition | Plinewidth => int
  | Plabel | Pbox_color | Paverage_color => str
  | Pdraw_whiskers | Pdraw_average | Pprint_average => bool_
  end.

Definition get_param (k : param) (a : args) : pyobj :=
  match k with
  | Pposition => position a
  | Plabel => label a
  | Pbox_color => box_color a
  | Paverage_color => average_color a
  | Plinewidth => linewidth a
  | Pdraw_whiskers => draw_whiskers a
  | Pdraw_average => draw_average a
  | Pprint_average => print_average a
  end.

Definition set_param (k : param) (v : pyobj) (a : args) : args :=
  match k with
  | Pposition =>
      mk_args v (label a) (box_color a) (average_color a) (linewidth a)
        (draw_whiskers a) (draw_average a) (print_average a)
  | Plabel =>
      mk_args (position a) v (box_color a) (average_color a) (linewidth a)
        (draw_whiskers a) (draw_average a) (print_average a)
  | Pbox_color =>
      mk_args (position a) (label a) v (average_color a) (linewidth a)
        (draw_whiskers a) (draw_average a) (print_average a)
  | Paverage_color =>
      mk_args (position a) (label a) (box_color a) v (linewidth a)
        (draw_whiskers a) (draw_average a) (print_average a)
  | Plinewidth =>
      mk_args (position a) (label a) (box_color a) (average_color a) v
        (draw_whiskers a) (draw_average a) (print_average a)
  | Pdraw_whiskers =>
      mk_args (position a) (label a) (box_color a) (average_color a)
        (linewidth a) v (draw_average a) (print_average a)
  | Pdraw_average =>
      mk_args (position a) (label a) (box_color a) (average_color a)
        (linewidth a) (draw_whiskers a) v (print_average a)
  | Pprint_average =>
      mk_args (position a) (label a) (box_color a) (average_color a)
        (linewidth a) (draw_whiskers a) (draw_average a) v
  end.

(** Every parameter is a single value of its element type. *)
Definition scalar_args (a : args) : Prop :=
  forall k, isinstance (get_param k a) (param_type k) = true.

(** Index [i] comes no later than index [j] when its key is no
    larger. *)
Definition key_le (keys : list Z) (i j : nat) : Prop :=
  nth i keys 0 <= nth j keys 0.

(** The invariant of the renderer: a well-formed registry that the
    surface shows. *)
Definition invariant (self : CustomBoxPlot) : Prop :=
  registry_ok self /\ synced self.

(** What validation has established when it returns. *)
Record validated (data : pyobj) (d : ndarray) (s : series) : Prop := {
  val_data : data = PArray d;
  val_ndim : (ndim d < 3)%nat;
  val_shape0 : shape0 d = Return (ser_N s);
  val_position :
    List.length (ser_position s) = ser_N s /\
    Forall (fun x => isinstance x int = true) (ser_position s);
  val_label :
    List.length (ser_label s) = ser_N s /\
    Forall (fun x => isinstance x str = true) (ser_label s);
  val_box_color :
    List.length (ser_box_color s) = ser_N s /\
    Forall (fun x => isinstance x str = true) (ser_box_color s);
  val_average_color :
    List.length (ser_average_color s) = ser_N s /\
    Forall (fun x => isinstance x str = true) (ser_average_color s);
  val_linewidth :
    List.length (ser_linewidth s) = ser_N s /\
    Forall (fun x => isinstance x int = true) (ser_linewidth s);
  val_draw_whiskers :
    List.length (ser_draw_whiskers s) = ser_N s /\
    Forall (fun x => isinstance x bool_ = true) (ser_draw_whiskers s);
  val_draw_average :
    List.length (ser_draw_average s) = ser_N s /\
    Forall (fun x => isinstance x bool_ = true) (ser_draw_average s);
  val_print_average :
    List.length (ser_print_average s) = ser_N s /\
    Forall (fun x => isinstance x bool_ = true) (ser_print_average s)
}.

(** The values the single-series part reads: item 0 of each normalised
    parameter. *)
Record heads (s : series) (p : Z) (l bc ac : string) (lw : Z)
    (dw da pa : bool) : Prop := {
  head_position : first_as (ser_position s) int_value = Return p;
  head_label : first_as (ser_label s) str_value = Return l;
  head_box_color : first_as (ser_box_color s) str_value = Return bc;
  head_average_color : first_as (ser_average_color s) str_value = Return ac;
  head_linewidth : first_as (ser_linewidth s) int_value = Return lw;
  head_draw_whiskers : first_as (ser_draw_whiskers s) bool_value = Return dw;
  head_draw_average : first_as (ser_draw_average s) bool_value = Return da;
  head_print_average : first_as (ser_print_average s) bool_value = Return pa
}.

(** Where the normalised parameters come from: lines 150-157. *)
Record normalised (a : args) (s : series) : Prop := {
  src_position :
    convert2sequence (position a) (ser_N s) "position" int
    = Return (ser_position s);
  src_label :
    convert2sequence (label_or_position (label a) (position a)) (ser_N s)
      "label" str = Return (ser_label s);
  src_box_color :
    convert2sequence (box_color a) (ser_N s) "box_color" str
    = Return (ser_box_color s);
  src_average_color :
    convert2sequence (average_color a) (ser_N s) "average_color" str
    = Return (ser_average_color s);
  src_linewidth :
    convert2sequence (linewidth a) (ser_N s) "linewidth" int
    = Return (ser_linewidth s);
  src_draw_whiskers :
    convert2sequence (draw_whiskers a) (ser_N s) "draw_whiskers" bool_
    = Return (ser_draw_whiskers s);
  src_draw_average :
    convert2sequence (draw_average a) (ser_N s) "draw_average" bool_
    = Return (ser_draw_average s);
  src_print_average :
    convert2sequence (print_average a) (ser_N s) "print_average" bool_
    = Return (ser_print_average s)
}.

(** The four statistics, in the order the source computes them. *)
Definition stats {numpy : Reductions} (l : list float)
    : outcome (float * float * float * float) :=
  obind (of_reduced (nanmean l)) (fun mean =>
  obind (of_reduced (nanstd l)) (fun std =>
  obind (of_reduced (nanmin l)) (fun min_val =>
  obind (of_reduced (nanmax l)) (fun max_val =>
  Return (mean, std, min_val, max_val))))).

(** The primitives of one series, as the specification lists them,
    for a position [p] that converts to a float. *)

(** The box: lower left corner [(position - 0.1, mean - std)], width
    0.2, height [(mean + std) - (mean - std)], not filled. *)
Definition box_call (p : Z) (mean std : float) (bc : string) (lw : Z) : call :=
  add_patch_Rectangle (fsub (float_of_int p) f0_1) (fsub mean std)
    f0_2 (fsub (fadd mean std) (fsub mean std)) false bc lw.

(** Bottom bar, top bar, bottom cap, top cap. *)
Definition whisker_calls (p : Z) (mean std min_val max_val : float)
    (bc : string) (lw : Z) : list call :=
  [plot (at_int p) (at_int p) min_val (fsub mean std) bc lw;
   plot (at_int p) (at_int p) (fadd mean std) max_val bc lw;
   plot (at_float (fsub (float_of_int p) f0_1))
     (at_float (fadd (float_of_int p) f0_1)) min_val min_val bc lw;
   plot (at_float (fsub (float_of_int p) f0_1))
     (at_float (fadd (float_of_int p) f0_1)) max_val max_val bc lw].

Definition average_call (p : Z) (mean : float) (ac : string) (lw : Z) : call :=
  plot (at_float (fsub (float_of_int p) f0_1))
    (at_float (fadd (float_of_int p) f0_1)) mean mean ac lw.

Definition text_call (p : Z) (mean : float) (ac : string) : call :=
  text (fadd (float_of_int p) f0_2) mean mean ac.

Definition when {A} (b : bool) (l : list A) : list A := if b then l else [].

(** All the primitives of one series before the tick update. *)
Definition series_calls (p : Z) (mean std min_val max_val : float)
    (bc ac : string) (lw : Z) (dw da pa : bool) : list call :=
  box_call p mean std bc lw
  :: when dw (whisker_calls p mean std min_val max_val bc lw)
  ++ when da [average_call p mean ac lw]
  ++ when pa [text_call p mean ac].

(** The renderer with more primitives on its surface. *)
Definition drawn (self : CustomBoxPlot) (calls : list call) : CustomBoxPlot :=
  {| ax := ax self ++ calls;
     current_positions := current_positions self;
     current_ticklabels := current_ticklabels self |}.

(** Primitives issued one after the other: the first one matplotlib
    refuses ends the run. *)
Fixpoint issue {matplotlib : Surface} (calls : list call) : M unit :=
  match calls with
  | [] => ret tt
  | c :: rest => bind (draw c) (fun _ => issue rest)
  end.

(** The primitives of [calls] that reach the surface, and the exception
    of the first refusal if there is one. *)
Fixpoint accepted_prefix {matplotlib : Surface} (calls : list call)
    : list call * option exn :=
  match calls with
  | [] => ([], None)
  | c :: rest =>
      match refuses c with
      | Some (cls, origin) => ([], Some (Foreign cls origin))
      | None =>
          let (prefix, refusal) := accepted_prefix rest in
          (c :: prefix, refusal)
      end
  end.

(** The renderer after the tick update for position [p] and label
    [l]. *)
Definition registered (self : CustomBoxPlot) (p : Z) (l : string)
    : CustomBoxPlot :=
  if contains p (current_positions self) then self
  else
    let positions := current_positions self ++ [p] in
    let labels := current_ticklabels self ++ [l] in
    {| ax := ax self ++
             [set_xticks (take 0 positions (argsort positions));
              set_xticklabels (take ""%string labels (argsort positions))];
       current_positions := positions;
       current_ticklabels := labels |}.

(** ** The parameters in the order of the signature *)

Definition param_name (k : param) : string :=
  match k with
  | Pposition => "position"
  | Plabel => "label"
  | Pbox_color => "box_color"
  | Paverage_color => "average_color"
  | Plinewidth => "linewidth"
  | Pdraw_whiskers => "draw_whiskers"
  | Pdraw_average => "draw_average"
  | Pprint_average => "print_average"
  end.

(** The parameters lines 150-157 normalise before [k]. *)
Definition params_before (k : param) : list param :=
  match k with
  | Pposition => []
  | Plabel => [Pposition]
  | Pbox_color => [Pposition; Plabel]
  | Paverage_color => [Pposition; Plabel; Pbox_color]
  | Plinewidth => [Pposition; Plabel; Pbox_color; Paverage_color]
  | Pdraw_whiskers =>
      [Pposition; Plabel; Pbox_color; Paverage_color; Plinewidth]
  | Pdraw_average =>
      [Pposition; Plabel; Pbox_color; Paverage_color; Plinewidth;
       Pdraw_whiskers]
  | Pprint_average =>
      [Pposition; Plabel; Pbox_color; Paverage_color; Plinewidth;
       Pdraw_whiskers; Pdraw_average]
  end.

(** The value of parameter [k] that reaches [convert2sequence]: as
    passed, the label being the one lines 140-141 leave. *)
Definition effective (k : param) (a : args) : pyobj :=
  match k with
  | Plabel => label_or_position (label a) (position a)
  | _ => get_param k a
  end.

(** The [convert2sequence] call of lines 150-157 for parameter [k]. *)
Definition normalise (k : param) (a : args) (N : nat) : outcome (list pyobj) :=
  convert2sequence (effective k a) N (param_name k) (param_type k).

(** The arguments of the call on row [index], lines 161-169: item
    [index] of each normalised parameter. *)
Definition row_args (s : series) (index : nat) : args :=
  mk_args (nth index (ser_position s) PNone)
    (nth index (ser_label s) PNone)
    (nth index (ser_box_color s) PNone)
    (nth index (ser_average_color s) PNone)
    (nth index (ser_linewidth s) PNone)
    (nth index (ser_draw_whiskers s) PNone)
    (nth index (ser_draw_average s) PNone)
    (nth index (ser_print_average s) PNone).

(** * Properties *)

(** ** Values and [convert2sequence] *)

Lemma int_value_isinstance v z :
  int_value v = Return z -> isinstance v int = true.
Proof. destruct v; simpl; intros H; congruence. Qed.

Lemma isinstance_str_inv v :
  isinstance v str = true -> exists s, v = PStr s.
Proof. destruct v; simpl; intros H; try discriminate. eauto. Qed.

Lemma isinstance_bool_inv v :
  isinstance v bool_ = true -> exists b, v = PBool b.
Proof. destruct v; simpl; intros H; try discriminate. eauto. Qed.

Lemma isinstance_int_inv v :
  isinstance v int = true -> exists z, int_value v = Return z.
Proof. destruct v; simpl; intros H; try discriminate; eauto. Qed.

(** A list or a tuple is an instance of none of the element types. *)
Lemma isinstance_PList items ty : isinstance (PList items) ty = false.
Proof. destruct ty; reflexivity. Qed.

Lemma isinstance_PTuple items ty : isinstance (PTuple items) ty = false.
Proof. destruct ty; reflexivity. Qed.

Lemma isinstance_not_None v ty : isinstance v ty = true -> v <> PNone.
Proof. destruct ty; intros H E; subst; discriminate. Qed.

(** Line 128-129: a value of the element type is replicated. *)
Lemma convert2sequence_scalar v N name ty :
  isinstance v ty = true ->
  convert2sequence v N name ty = Return (repeat v N).
Proof. unfold convert2sequence. intros ->. reflexivity. Qed.

Lemma forallb_repeat {A} (f : A -> bool) x n :
  f x = true -> forallb f (repeat x n) = true.
Proof. intros H. induction n; simpl; [reflexivity | now rewrite H]. Qed.

(** Lines 130-136: a list or tuple passes when it has [N] items, all of
    the element type, and is returned as it is. *)
Lemma convert2sequence_items v items N name ty :
  isinstance v ty = false ->
  seq_items v = Some items ->
  List.length items = N ->
  forallb (fun x => isinstance x ty) items = true ->
  convert2sequence v N name ty = Return items.
Proof.
  unfold convert2sequence. intros -> -> Hlen ->.
  apply Nat.eqb_eq in Hlen. now rewrite Hlen.
Qed.

(** Lines 131-132: a Sequence of any other length is refused. *)
Lemma convert2sequence_length v items N name ty :
  isinstance v ty = false ->
  seq_items v = Some items ->
  List.length items <> N ->
  convert2sequence v N name ty = Raise (ParamLength name ty N (List.length items)).
Proof.
  unfold convert2sequence. intros -> -> Hlen.
  apply Nat.eqb_neq in Hlen. now rewrite Hlen.
Qed.

Lemma convert2sequence_repeat_list v N name ty :
  isinstance v ty = true ->
  convert2sequence (PList (repeat v N)) N name ty = Return (repeat v N).
Proof.
  intros H. apply convert2sequence_items.
  - apply isinstance_PList.
  - reflexivity.
  - apply repeat_length.
  - now apply forallb_repeat.
Qed.

Lemma convert2sequence_repeat_tuple v N name ty :
  isinstance v ty = true ->
  convert2sequence (PTuple (repeat v N)) N name ty = Return (repeat v N).
Proof.
  intros H. apply convert2sequence_items.
  - apply isinstance_PTuple.
  - reflexivity.
  - apply repeat_length.
  - now apply forallb_repeat.
Qed.

(** What a successful normalisation returns: [N] items of the element
    type. *)
Lemma convert2sequence_Return v N name ty l :
  convert2sequence v N name ty = Return l ->
  List.length l = N /\ Forall (fun x => isinstance x ty = true) l.
Proof.
  unfold convert2sequence.
  destruct (isinstance v ty) eqn:Hty.
  - intros [= <-]. split; [apply repeat_length |].
    apply Forall_forall. intros x Hx. apply repeat_spec in Hx. now subst.
  - destruct (seq_items v) as [items |]; [| discriminate].
    destruct (List.length items =? N)%nat eqn:Hlen; simpl; [| discriminate].
    destruct (forallb _ items) eqn:Hall; [| discriminate].
    intros [= <-]. split.
    + now apply Nat.eqb_eq.
    + apply Forall_forall. rewrite forallb_forall in Hall. exact Hall.
Qed.

(** The only exceptions of [convert2sequence] are its two [raise]
    statements. *)
Lemma convert2sequence_Raise v N name ty e :
  convert2sequence v N name ty = Raise e ->
  e = ParamType name ty N \/ exists len, len <> N /\ e = ParamLength name ty N len.
Proof.
  unfold convert2sequence.
  destruct (isinstance v ty); [discriminate |].
  destruct (seq_items v) as [items |].
  - destruct (List.length items =? N)%nat eqn:Hlen; simpl.
    + destruct (forallb _ items); [discriminate |]. intros [= <-]. now left.
    + intros [= <-]. right. exists (List.length items). split; [| reflexivity].
      now apply Nat.eqb_neq.
  - intros [= <-]. now left.
Qed.


(** ** The monad *)

Lemma bind_lift {A B} (o : outcome A) (k : A -> M B) self :
  bind (lift o) k self =
  match o with
  | Return a => k a self
  | Raise e => (Raise e, self)
  end.
Proof. destruct o; reflexivity. Qed.

Lemma for_each_ext indices (f g : nat -> M unit) :
  (forall index self, In index indices -> f index self = g index self) ->
  forall self, for_each indices f self = for_each indices g self.
Proof.
  induction indices as [| i rest IH]; intros H self; simpl.
  - reflexivity.
  - unfold bind. rewrite H by now left.
    destruct (g i self) as [[[] | e] self1]; [| reflexivity].
    apply IH. intros index s Hin. apply H. now right.
Qed.

Section Respects.

Context {matplotlib : Surface}.
Variable P : CustomBoxPlot -> Prop.
Variable E : exn -> Prop.

Lemma respects_ret {A} (a : A) : respects P E (ret a).
Proof.
  intros self o self' HP [= <- <-]. split; [assumption | discriminate].
Qed.

Lemma respects_raise {A} e : E e -> respects P E (@raise A e).
Proof.
  intros He self o self' HP [= <- <-]. split; [assumption |].
  now intros e' [= <-].
Qed.

Lemma respects_lift {A} (o : outcome A) :
  (forall e, o = Raise e -> E e) -> respects P E (lift o).
Proof.
  intros He self o' self' HP [= <- <-]. split; assumption.
Qed.

Lemma respects_bind {A B} (m : M A) (k : A -> M B) :
  respects P E m ->
  (forall a, returns m a -> respects P E (k a)) ->
  respects P E (bind m k).
Proof.
  intros Hm Hk self o self' HP. unfold bind.
  destruct (m self) as [[a | e] self1] eqn:Em; intros H.
  - destruct (Hm _ _ _ HP Em) as [HP1 _].
    eapply Hk; eauto. now exists self, self1.
  - injection H as <- <-. destruct (Hm _ _ _ HP Em) as [HP1 He].
    split; [assumption |]. intros e' [= <-]. now apply He.
Qed.

Lemma respects_ext {A} (m m' : M A) :
  (forall self, m self = m' self) -> respects P E m' -> respects P E m.
Proof.
  intros Hext Hm self o self' HP H. rewrite Hext in H. eapply Hm; eauto.
Qed.

(** A primitive reaches the surface or is refused with an exception of
    matplotlib. *)
Lemma respects_draw c :
  stable P c -> (forall cls origin, E (Foreign cls origin)) ->
  respects P E (draw c).
Proof.
  intros Hc HE self o self' HP. unfold draw.
  destruct (refuses c) as [[cls origin] |]; intros [= <- <-].
  - split; [assumption |]. intros e [= <-]. apply HE.
  - split; [now apply Hc | discriminate].
Qed.

Lemma respects_for_each indices (body : nat -> M unit) :
  (forall index, In index indices -> respects P E (body index)) ->
  respects P E (for_each indices body).
Proof.
  induction indices as [| i rest IH]; intros H; simpl.
  - apply respects_ret.
  - apply respects_bind.
    + apply H. now left.
    + intros _ _. apply IH. intros index Hin. apply H. now right.
Qed.

End Respects.

Lemma returns_lift {A} (o : outcome A) a : returns (lift o) a -> o = Return a.
Proof. intros (self & self' & H). now injection H. Qed.


(** The implicit exceptions of a subscript read at a given type. *)
Lemma item0_Raise {A} l (as_ : pyobj -> outcome A) e :
  (forall v e', as_ v = Raise e' -> e' = BadOperand) ->
  first_as l as_ = Raise e -> implicit e.
Proof.
  intros Has. unfold first_as, getitem. destruct (nth_error l 0) as [v |]; simpl.
  - intros H. apply Has in H. now subst.
  - now intros [= <-].
Qed.


Lemma int_value_Raise v e : int_value v = Raise e -> e = BadOperand.
Proof. destruct v; simpl; congruence. Qed.

Lemma str_value_Raise v e : str_value v = Raise e -> e = BadOperand.
Proof. destruct v; simpl; congruence. Qed.

Lemma bool_value_Raise v e : bool_value v = Raise e -> e = BadOperand.
Proof. destruct v; simpl; congruence. Qed.

Lemma of_reduced_Raise r e : of_reduced r = Raise e -> implicit e.
Proof. destruct r; simpl; [discriminate | now intros [= <-]]. Qed.

(** The conversion of an [int] gives the nearest float or raises
    OverflowError. *)
Lemma of_int_Return z x : of_int z = Return x -> x = float_of_int z.
Proof.
  unfold of_int. cbv zeta. destruct (is_infinity (float_of_int z));
    [discriminate | now intros [= <-]].
Qed.

Lemma of_int_Raise z e : of_int z = Raise e -> e = IntTooLarge.
Proof.
  unfold of_int. cbv zeta. destruct (is_infinity (float_of_int z));
    [now intros [= <-] | discriminate].
Qed.

Lemma of_int_implicit z e : of_int z = Raise e -> implicit e.
Proof. intros H. apply of_int_Raise in H. now subst. Qed.

(** ** Validation, then dispatch *)

Section Properties.

Context {numpy : Reductions} {matplotlib : Surface}.


Lemma add_boxplot_body_phases recurse data a self :
  add_boxplot_body recurse data a self =
  match validate data a with
  | Return (d, s) => dispatch recurse d s self
  | Raise e => (Raise e, self)
  end.
Proof.
  unfold add_boxplot_body, validate.
  destruct data; try reflexivity.
  destruct (3 <=? ndim a0)%nat; [reflexivity |].
  rewrite bind_lift. destruct (shape0 a0) as [N | e]; simpl; [| reflexivity].
  repeat (rewrite bind_lift;
          match goal with
          | |- context [convert2sequence ?v ?n ?nm ?ty] =>
              destruct (convert2sequence v n nm ty); simpl; [| reflexivity]
          end).
  reflexivity.
Qed.


Lemma validate_Return data a d s :
  validate data a = Return (d, s) -> validated data d s.
Proof.
  unfold validate.
  destruct data; try discriminate.
  destruct (3 <=? ndim a0)%nat eqn:Hdim; [discriminate |].
  destruct (shape0 a0) as [N | e] eqn:HN; simpl; [| discriminate].
  repeat match goal with
         | |- context [convert2sequence ?v ?n ?nm ?ty] =>
             let H := fresh "Hc" in
             destruct (convert2sequence v n nm ty) eqn:H; simpl;
             [apply convert2sequence_Return in H | discriminate]
         end.
  intros [= <- <-]. apply Nat.leb_gt in Hdim.
  constructor; simpl; auto.
Qed.

(** Line 140-141 leaves a label that was given as it is. *)
Lemma label_given l p : l <> PNone -> label_or_position l p = l.
Proof. destruct l; simpl; congruence. Qed.

(** Scalars of the element types always validate on an array of one or
    two dimensions (or an empty shape aside): each is replicated
    [data.shape[0]] times. *)
Lemma validate_scalars d a N :
  (ndim d < 3)%nat ->
  shape0 d = Return N ->
  scalar_args a ->
  validate (PArray d) a =
  Return (d, mk_series N (repeat (position a) N) (repeat (label a) N)
               (repeat (box_color a) N) (repeat (average_color a) N)
               (repeat (linewidth a) N) (repeat (draw_whiskers a) N)
               (repeat (draw_average a) N) (repeat (print_average a) N)).
Proof.
  intros Hdim HN Ha. unfold validate.
  apply Nat.leb_gt in Hdim. rewrite Hdim, HN. simpl.
  pose proof (Ha Plabel) as Hl. change (isinstance (label a) str = true) in Hl.
  rewrite (label_given _ (position a) (isinstance_not_None _ _ Hl)).
  rewrite (convert2sequence_scalar _ _ _ _ (Ha Pposition)). simpl.
  rewrite (convert2sequence_scalar _ _ _ _ Hl). simpl.
  rewrite (convert2sequence_scalar _ _ _ _ (Ha Pbox_color)). simpl.
  rewrite (convert2sequence_scalar _ _ _ _ (Ha Paverage_color)). simpl.
  rewrite (convert2sequence_scalar _ _ _ _ (Ha Plinewidth)). simpl.
  rewrite (convert2sequence_scalar _ _ _ _ (Ha Pdraw_whiskers)). simpl.
  rewrite (convert2sequence_scalar _ _ _ _ (Ha Pdraw_average)). simpl.
  rewrite (convert2sequence_scalar _ _ _ _ (Ha Pprint_average)). simpl.
  reflexivity.
Qed.

Lemma ndim_subarray d index : ndim (subarray d index) = pred (ndim d).
Proof. unfold ndim, subarray. simpl. now destruct (shape d). Qed.

Lemma shape0_ndim1 d : ndim d = 1%nat -> exists N, shape d = [N].
Proof.
  unfold ndim. destruct (shape d) as [| n [| m rest]]; simpl; try discriminate.
  intros _. now exists n.
Qed.

(** A call on a 1-D array with scalars of the element types is the
    single-series part on the replicated scalars, whatever the method
    would do on a recursive call. *)
Lemma leaf_call recurse d a N self :
  shape d = [N] ->
  scalar_args a ->
  add_boxplot_body recurse (PArray d) a self =
  draw_series d (repeat (position a) N) (repeat (label a) N)
    (repeat (box_color a) N) (repeat (average_color a) N)
    (repeat (linewidth a) N) (repeat (draw_whiskers a) N)
    (repeat (draw_average a) N) (repeat (print_average a) N) self.
Proof.
  intros Hs Ha. rewrite add_boxplot_body_phases.
  rewrite (validate_scalars d a N); auto.
  - unfold dispatch, ndim. rewrite Hs. reflexivity.
  - unfold ndim. rewrite Hs. simpl. lia.
  - unfold shape0. now rewrite Hs.
Qed.

(** The method is not called again on anything but a 2-D array. *)
Lemma add_boxplot_body_leaf recurse recurse' data a self :
  (forall d, data = PArray d -> ndim d <> 2%nat) ->
  add_boxplot_body recurse data a self = add_boxplot_body recurse' data a self.
Proof.
  intros Hleaf. rewrite !add_boxplot_body_phases.
  destruct (validate data a) as [[d s] | e] eqn:Hv; [| reflexivity].
  apply validate_Return in Hv. destruct Hv as [-> _ _ _ _ _ _ _ _ _ _].
  unfold dispatch.
  destruct (ndim d =? 2)%nat eqn:E; [| reflexivity].
  apply Nat.eqb_eq in E. now elim (Hleaf d eq_refl).
Qed.

(** Two frames are enough: more change nothing. *)
Lemma add_boxplot_frames n data a self :
  add_boxplot_rec (S (S n)) data a self = add_boxplot data a self.
Proof.
  unfold add_boxplot. simpl.
  rewrite !add_boxplot_body_phases.
  destruct (validate data a) as [[d s] | e] eqn:Hv; [| reflexivity].
  unfold dispatch.
  destruct (ndim d =? 2)%nat eqn:E; [| reflexivity].
  apply Nat.eqb_eq in E.
  apply for_each_ext. intros index self1 _.
  unfold row_call, bind.
  repeat match goal with
         | |- context [item ?l ?i ?s] =>
             destruct (item l i s) as [[? | ?] ?]; [| reflexivity]
         end.
  apply add_boxplot_body_leaf.
  intros d' [= <-]. rewrite ndim_subarray, E. discriminate.
Qed.

(** ** Sorting the ticks *)


Lemma insert_index_perm keys i sorted :
  Permutation (insert_index keys i sorted) (i :: sorted).
Proof.
  induction sorted as [| j rest IH]; simpl.
  - apply Permutation_refl.
  - destruct (nth i keys 0 <=? nth j keys 0).
    + apply Permutation_refl.
    + eapply perm_trans; [apply perm_skip, IH | apply perm_swap].
Qed.

Lemma argsort_perm keys :
  Permutation (argsort keys) (seq 0 (List.length keys)).
Proof.
  unfold argsort. induction (seq 0 (List.length keys)) as [| i rest IH]; simpl.
  - apply Permutation_refl.
  - eapply perm_trans; [apply insert_index_perm | now apply perm_skip].
Qed.

Lemma insert_index_sorted keys i sorted :
  StronglySorted (key_le keys) sorted ->
  StronglySorted (key_le keys) (insert_index keys i sorted).
Proof.
  induction 1 as [| j rest Hrest IH Hj]; simpl.
  - constructor; constructor.
  - destruct (nth i keys 0 <=? nth j keys 0) eqn:Hle.
    + apply Z.leb_le in Hle. constructor.
      * now constructor.
      * constructor; [exact Hle |].
        eapply Forall_impl; [| exact Hj]. unfold key_le. intros k Hk. lia.
    + apply Z.leb_gt in Hle. constructor; [exact IH |].
      eapply Permutation_Forall.
      * apply Permutation_sym, insert_index_perm.
      * constructor; [unfold key_le; lia | exact Hj].
Qed.

Lemma argsort_sorted keys : StronglySorted (key_le keys) (argsort keys).
Proof.
  unfold argsort. induction (seq 0 (List.length keys)) as [| i rest IH]; simpl.
  - constructor.
  - now apply insert_index_sorted.
Qed.

Lemma take_sorted keys indices :
  StronglySorted (key_le keys) indices ->
  StronglySorted Z.le (take 0 keys indices).
Proof.
  induction 1 as [| i rest Hrest IH Hi]; simpl; constructor.
  - exact IH.
  - unfold take. apply Forall_map. exact Hi.
Qed.

Lemma combine_take {A B} (da : A) (db : B) xs ys indices :
  combine (take da xs indices) (take db ys indices) =
  map (fun i => (nth i xs da, nth i ys db)) indices.
Proof.
  induction indices as [| i rest IH]; simpl; [reflexivity | now rewrite IH].
Qed.

Lemma map_nth_seq {A B} (da : A) (db : B) xs ys :
  List.length xs = List.length ys ->
  map (fun i => (nth i xs da, nth i ys db)) (seq 0 (List.length xs)) =
  combine xs ys.
Proof.
  revert ys. induction xs as [| x xs IH]; intros [| y ys] Hlen;
    simpl in *; try discriminate; try reflexivity.
  f_equal. rewrite <- seq_shift, map_map. apply IH. congruence.
Qed.

(** The pushed pairs are the registered pairs, reordered. *)
Lemma take_argsort_pairs {B} (db : B) keys (values : list B) :
  List.length keys = List.length values ->
  Permutation
    (combine (take 0 keys (argsort keys)) (take db values (argsort keys)))
    (combine keys values).
Proof.
  intros Hlen. rewrite combine_take.
  rewrite <- (map_nth_seq 0 db keys values Hlen).
  apply Permutation_map, argsort_perm.
Qed.

Lemma take_argsort_perm keys :
  Permutation (take 0 keys (argsort keys)) keys.
Proof.
  assert (H : map fst (combine keys keys) = keys).
  { induction keys; simpl; [reflexivity | now f_equal]. }
  rewrite <- H at 3.
  rewrite <- (map_nth_seq 0 0 keys keys eq_refl), map_map. simpl.
  unfold take. apply Permutation_map, argsort_perm.
Qed.

Lemma take_length {A} (d : A) values indices :
  List.length (take d values indices) = List.length indices.
Proof. unfold take. apply length_map. Qed.

Lemma strictly_sorted l :
  NoDup l -> StronglySorted Z.le l -> StronglySorted Z.lt l.
Proof.
  induction 2 as [| x rest Hrest IH Hx]; constructor.
  - apply IH. now inversion H.
  - inversion H as [| ? ? Hnotin Hnodup]; subst.
    rewrite Forall_forall in *. intros y Hy.
    specialize (Hx y Hy). assert (x <> y) by (intros ->; contradiction). lia.
Qed.

(** The ticks pushed for a well-formed registry: strictly ascending, and
    each label still with its position. *)
Lemma sorted_registry positions labels :
  List.length positions = List.length labels ->
  NoDup positions ->
  let ticks := take 0 positions (argsort positions) in
  let ticklabels := take ""%string labels (argsort positions) in
  StronglySorted Z.lt ticks /\
  List.length ticks = List.length ticklabels /\
  Permutation (combine ticks ticklabels) (combine positions labels).
Proof.
  intros Hlen Hnodup. cbv zeta. repeat split.
  - apply strictly_sorted.
    + eapply Permutation_NoDup; [| exact Hnodup].
      apply Permutation_sym, take_argsort_perm.
    + apply take_sorted, argsort_sorted.
  - now rewrite !take_length.
  - now apply take_argsort_pairs.
Qed.

(** ** What the surface holds *)

Lemma last_xticks_app calls c :
  last_xticks (calls ++ [c]) =
  match c with
  | set_xticks t => Some t
  | _ => last_xticks calls
  end.
Proof.
  induction calls as [| c0 rest IH]; simpl.
  - now destruct c.
  - rewrite IH. destruct c; try reflexivity.
Qed.

Lemma last_xticklabels_app calls c :
  last_xticklabels (calls ++ [c]) =
  match c with
  | set_xticklabels t => Some t
  | _ => last_xticklabels calls
  end.
Proof.
  induction calls as [| c0 rest IH]; simpl.
  - now destruct c.
  - rewrite IH. destruct c; try reflexivity.
Qed.

Lemma last_pushed calls t l :
  last_xticks (calls ++ [set_xticks t; set_xticklabels l]) = Some t /\
  last_xticklabels (calls ++ [set_xticks t; set_xticklabels l]) = Some l.
Proof.
  change (calls ++ [set_xticks t; set_xticklabels l])
    with (calls ++ ([set_xticks t] ++ [set_xticklabels l])).
  rewrite app_assoc.
  now rewrite last_xticks_app, last_xticklabels_app, last_xticks_app.
Qed.


Lemma invariant_stable c : is_tick_call c = false -> stable invariant c.
Proof.
  intros Hc self [Hreg Hsync]. split; [exact Hreg |].
  destruct Hsync as [Hempty | [Ht Hl]]; [now left | right].
  simpl. rewrite last_xticks_app, last_xticklabels_app.
  destruct c; try discriminate; now split.
Qed.

Lemma contains_In x l : contains x l = true <-> In x l.
Proof.
  unfold contains. rewrite existsb_exists. split.
  - intros (y & Hy & Heq). apply Z.eqb_eq in Heq. now subst.
  - intros H. exists x. split; [assumption | apply Z.eqb_refl].
Qed.

Lemma contains_not_In x l : contains x l = false <-> ~ In x l.
Proof.
  rewrite <- contains_In. destruct (contains x l); split; congruence.
Qed.

(** ** The tick update *)

(** A position already registered: nothing happens. *)
Lemma update_ticks_present p label self :
  In p (current_positions self) ->
  update_ticks p label self = (Return tt, self).
Proof.
  intros Hin. apply contains_In in Hin.
  unfold update_ticks, bind, get. now rewrite Hin.
Qed.

(** With a label to read, the update is [registered]: for a new
    position the pair is appended and the sorted registry is pushed. *)
Lemma update_ticks_Return p label l self :
  first_as label str_value = Return l ->
  update_ticks p label self = (Return tt, registered self p l).
Proof.
  intros Hl. unfold update_ticks, registered, bind, get, item0, lift.
  destruct (contains p (current_positions self)); simpl; [reflexivity |].
  rewrite Hl. unfold append_ticklabel, draw. simpl.
  rewrite (ticks_accepted (set_xticks _)) by reflexivity. simpl.
  rewrite (ticks_accepted (set_xticklabels _)) by reflexivity.
  now rewrite <- app_assoc.
Qed.

(** Without one, a new position would be appended alone before
    [label[0]] raises.  Validation rules this out: the two parameters
    have one length. *)
Lemma update_ticks_Raise p label e self :
  ~ In p (current_positions self) ->
  first_as label str_value = Raise e ->
  update_ticks p label self =
  (Raise e,
   {| ax := ax self;
      current_positions := current_positions self ++ [p];
      current_ticklabels := current_ticklabels self |}).
Proof.
  intros Hin Hl. apply contains_not_In in Hin.
  unfold update_ticks, bind, get, item0, lift. rewrite Hin. simpl.
  now rewrite Hl.
Qed.

Lemma registered_registry_ok self p l :
  registry_ok self -> registry_ok (registered self p l).
Proof.
  intros [Hlen Hnodup]. unfold registered.
  destruct (contains p (current_positions self)) eqn:Hin; [now split |].
  apply contains_not_In in Hin. split; simpl.
  - rewrite !length_app. simpl. lia.
  - apply NoDup_rev in Hnodup.
    rewrite <- (rev_involutive (current_positions self ++ [p])).
    apply NoDup_rev. rewrite rev_app_distr. simpl.
    constructor; [| assumption]. now rewrite <- in_rev.
Qed.

Lemma registered_synced self p l : synced self -> synced (registered self p l).
Proof.
  intros Hsync. unfold registered.
  destruct (contains p (current_positions self)); [assumption |].
  right. apply last_pushed.
Qed.

(** With a label to read, the tick update raises nothing and keeps any
    property that [registered] keeps. *)
Lemma update_ticks_respects (P : CustomBoxPlot -> Prop) (E : exn -> Prop)
    p label :
  (exists l, first_as label str_value = Return l) ->
  (forall self l, P self -> P (registered self p l)) ->
  respects P E (update_ticks p label).
Proof.
  intros [l Hl] HP self o self' Hself H.
  rewrite (update_ticks_Return _ _ l) in H by assumption.
  injection H as <- <-. split; [now apply HP | discriminate].
Qed.

Lemma validated_label_readable data d s :
  validated data d s -> label_readable (ser_position s) (ser_label s).
Proof.
  intros [_ _ _ [L1 _] [L2 H2] _ _ _ _ _ _] Hne.
  destruct (ser_label s) as [| v rest].
  - destruct (ser_position s); [contradiction | simpl in *; congruence].
  - apply Forall_inv in H2. apply isinstance_str_inv in H2.
    destruct H2 as [l ->]. now exists l.
Qed.


Lemma returns_position_nonempty {A} position (as_ : pyobj -> outcome A) p :
  returns (item0 position as_) p -> position <> [].
Proof.
  intros H. apply returns_lift in H. intros ->. discriminate.
Qed.

(** ** The single-series part *)

Ltac respects_step HE Hstable :=
  match goal with
  | |- respects _ _ (bind _ _) => apply respects_bind; [| intros ? ?]
  | |- respects _ _ (lift (of_reduced _)) =>
      apply respects_lift; intros ? ?; apply HE; eapply of_reduced_Raise; eauto
  | |- respects _ _ (item0 _ int_value) =>
      apply respects_lift; intros ? ?; apply HE;
      eapply item0_Raise; [apply int_value_Raise | eassumption]
  | |- respects _ _ (item0 _ str_value) =>
      apply respects_lift; intros ? ?; apply HE;
      eapply item0_Raise; [apply str_value_Raise | eassumption]
  | |- respects _ _ (item0 _ bool_value) =>
      apply respects_lift; intros ? ?; apply HE;
      eapply item0_Raise; [apply bool_value_Raise | eassumption]
  | |- respects _ _ (lift (of_int _)) =>
      apply respects_lift; intros ? ?; apply HE; eapply of_int_implicit; eauto
  | |- respects _ _ (draw _) =>
      apply respects_draw; [apply Hstable; reflexivity | intros; now apply HE]
  | |- respects _ _ (if ?b then _ else _) => destruct b
  | |- respects _ _ (ret _) => apply respects_ret
  end.

(** Whatever the primitives other than the tick setters preserve, and
    the tick update preserves for the position read, the single-series
    part preserves; and it raises nothing but implicit exceptions. *)
Lemma draw_series_respects (P : CustomBoxPlot -> Prop) (E : exn -> Prop)
    d position label box_color average_color linewidth
    draw_whiskers draw_average print_average :
  (forall c, is_tick_call c = false -> stable P c) ->
  (forall e, implicit e -> E e) ->
  (forall p, returns (item0 position int_value) p ->
             respects P E (update_ticks p label)) ->
  respects P E
    (draw_series d position label box_color average_color linewidth
       draw_whiskers draw_average print_average).
Proof.
  intros Hstable HE Hticks. unfold draw_series.
  repeat first [ now apply Hticks | respects_step HE Hstable ].
Qed.


Lemma Forall_In_isinstance l ty v :
  Forall (fun x => isinstance x ty = true) l -> In v l -> isinstance v ty = true.
Proof. rewrite Forall_forall. auto. Qed.

(** The items of validated parameters are scalars of the element
    types. *)
Lemma row_args_scalar data d s p l bc ac lw dw da pa :
  validated data d s ->
  In p (ser_position s) -> In l (ser_label s) ->
  In bc (ser_box_color s) -> In ac (ser_average_color s) ->
  In lw (ser_linewidth s) -> In dw (ser_draw_whiskers s) ->
  In da (ser_draw_average s) -> In pa (ser_print_average s) ->
  scalar_args (mk_args p l bc ac lw dw da pa).
Proof.
  intros [_ _ _ [_ H1] [_ H2] [_ H3] [_ H4] [_ H5] [_ H6] [_ H7] [_ H8]].
  intros; intros k; destruct k;
    cbn [get_param param_type position label box_color average_color
         linewidth draw_whiskers draw_average print_average];
    (eapply Forall_In_isinstance; [| eassumption]); assumption.
Qed.




(** ** The single-series part, step by step *)

(** A reduction that raises ends the call before anything is drawn. *)
Lemma draw_series_stats_Raise d position label box_color average_color
    linewidth draw_whiskers draw_average print_average e self :
  stats (flat d) = Raise e ->
  draw_series d position label box_color average_color linewidth
    draw_whiskers draw_average print_average self = (Raise e, self).
Proof.
  unfold stats, draw_series, bind, lift.
  destruct (of_reduced (nanmean (flat d))); simpl; [| congruence].
  destruct (of_reduced (nanstd (flat d))); simpl; [| congruence].
  destruct (of_reduced (nanmin (flat d))); simpl; [| congruence].
  destruct (of_reduced (nanmax (flat d))); simpl; [discriminate | congruence].
Qed.

(** With no item 0 to read, [position[0]] raises IndexError, again
    before anything is drawn. *)
Lemma draw_series_empty d label box_color average_color
    linewidth draw_whiskers draw_average print_average v self :
  stats (flat d) = Return v ->
  draw_series d [] label box_color average_color linewidth
    draw_whiskers draw_average print_average self = (Raise OutOfRange, self).
Proof.
  unfold stats, draw_series, bind, lift.
  destruct (of_reduced (nanmean (flat d))); simpl; [| discriminate].
  destruct (of_reduced (nanstd (flat d))); simpl; [| discriminate].
  destruct (of_reduced (nanmin (flat d))); simpl; [| discriminate].
  destruct (of_reduced (nanmax (flat d))); simpl; [| discriminate].
  reflexivity.
Qed.

Lemma drawn_nil self : drawn self [] = self.
Proof. destruct self. unfold drawn. simpl. now rewrite app_nil_r. Qed.

(** The primitives issued in turn are those matplotlib accepts before
    its first refusal. *)
Lemma issue_accepted_prefix calls self :
  issue calls self =
  match accepted_prefix calls with
  | (prefix, None) => (Return tt, drawn self prefix)
  | (prefix, Some e) => (Raise e, drawn self prefix)
  end.
Proof.
  revert self. induction calls as [| c rest IH]; intros self; simpl.
  - now rewrite drawn_nil.
  - unfold bind, draw. destruct (refuses c) as [[cls origin] |].
    + now rewrite drawn_nil.
    + rewrite IH. destruct (accepted_prefix rest) as [prefix [e |]];
        unfold drawn; simpl; now rewrite <- app_assoc.
Qed.

(** With no refusal, everything was accepted. *)
Lemma accepted_prefix_all calls prefix :
  accepted_prefix calls = (prefix, None) -> prefix = calls.
Proof.
  revert prefix. induction calls as [| c rest IH]; intros prefix; simpl.
  - now intros [= <-].
  - destruct (refuses c) as [[cls origin] |]; [discriminate |].
    destruct (accepted_prefix rest) as [prefix' r]. intros [= <- ->].
    f_equal. now apply IH.
Qed.

(** With one, the primitives before the refused one were accepted, and
    the exception is the one matplotlib raised. *)
Lemma accepted_prefix_refusal calls prefix e :
  accepted_prefix calls = (prefix, Some e) ->
  exists c rest cls origin,
    calls = prefix ++ c :: rest /\
    Forall (fun c' => refuses c' = None) prefix /\
    refuses c = Some (cls, origin) /\
    e = Foreign cls origin.
Proof.
  revert prefix. induction calls as [| c rest IH]; intros prefix; simpl.
  - discriminate.
  - destruct (refuses c) as [[cls origin] |] eqn:Hc.
    + intros [= <- <-]. exists c, rest, cls, origin. now repeat split.
    + destruct (accepted_prefix rest) as [prefix' r]. intros [= <- ->].
      destruct (IH prefix' eq_refl) as (c' & rest' & cls & origin & -> & Hall & Hc' & ->).
      exists c', rest', cls, origin. repeat split; auto.
Qed.

(** With the statistics computed, item 0 of each parameter read and the
    position converted, the single-series part issues the primitives of
    the series and then updates the ticks. *)
Lemma draw_series_issue d s mean std min_val max_val p l bc ac lw dw da pa self :
  stats (flat d) = Return (mean, std, min_val, max_val) ->
  heads s p l bc ac lw dw da pa ->
  of_int p = Return (float_of_int p) ->
  draw_series d (ser_position s) (ser_label s) (ser_box_color s)
    (ser_average_color s) (ser_linewidth s) (ser_draw_whiskers s)
    (ser_draw_average s) (ser_print_average s) self =
  bind (issue (series_calls p mean std min_val max_val bc ac lw dw da pa))
    (fun _ => update_ticks p (ser_label s)) self.
Proof.
  intros Hstats [Hp Hl Hbc Hac Hlw Hdw Hda Hpa] Hx.
  unfold stats in Hstats. unfold draw_series, item0.
  destruct (of_reduced (nanmean (flat d))); simpl in Hstats; [| discriminate].
  destruct (of_reduced (nanstd (flat d))); simpl in Hstats; [| discriminate].
  destruct (of_reduced (nanmin (flat d))); simpl in Hstats; [| discriminate].
  destruct (of_reduced (nanmax (flat d))); simpl in Hstats; [| discriminate].
  injection Hstats as -> -> -> ->.
  rewrite Hp, Hbc, Hlw, Hdw, Hda, Hpa, Hac.
  do 5 (rewrite bind_lift; cbv beta iota). rewrite Hx.
  unfold series_calls, when, box_call, whisker_calls, average_call, text_call.
  destruct dw, da, pa; cbn [app issue];
    unfold bind, lift, draw, ret;
    repeat match goal with
           | |- context [refuses ?c] => destruct (refuses c) as [[? ?] |]
           end;
    reflexivity.
Qed.

(** The single-series part, outcome by outcome: the position may be too
    large for a float, and matplotlib may refuse a primitive, leaving
    the ones before it on the surface; otherwise the series is drawn and
    the ticks are updated. *)
Lemma draw_series_heads d s mean std min_val max_val p l bc ac lw dw da pa self :
  stats (flat d) = Return (mean, std, min_val, max_val) ->
  heads s p l bc ac lw dw da pa ->
  draw_series d (ser_position s) (ser_label s) (ser_box_color s)
    (ser_average_color s) (ser_linewidth s) (ser_draw_whiskers s)
    (ser_draw_average s) (ser_print_average s) self =
  match of_int p with
  | Raise e => (Raise e, self)
  | Return _ =>
      match accepted_prefix
              (series_calls p mean std min_val max_val bc ac lw dw da pa) with
      | (prefix, None) => (Return tt, registered (drawn self prefix) p l)
      | (prefix, Some e) => (Raise e, drawn self prefix)
      end
  end.
Proof.
  intros Hstats Hheads.
  destruct (of_int p) as [x | e] eqn:Hx.
  - pose proof (of_int_Return _ _ Hx) as ->.
    rewrite (draw_series_issue d s mean std min_val max_val
               p l bc ac lw dw da pa) by assumption.
    unfold bind. rewrite issue_accepted_prefix.
    destruct (accepted_prefix _) as [prefix [e |]]; [reflexivity |].
    apply update_ticks_Return, Hheads.
  - destruct Hheads as [Hp _ _ _ _ _ _ _].
    unfold stats in Hstats. unfold draw_series, item0.
    destruct (of_reduced (nanmean (flat d))); simpl in Hstats; [| discriminate].
    destruct (of_reduced (nanstd (flat d))); simpl in Hstats; [| discriminate].
    destruct (of_reduced (nanmin (flat d))); simpl in Hstats; [| discriminate].
    destruct (of_reduced (nanmax (flat d))); simpl in Hstats; [| discriminate].
    rewrite Hp. do 5 (rewrite bind_lift; cbv beta iota). now rewrite Hx.
Qed.

Lemma first_as_cons {A} v rest (as_ : pyobj -> outcome A) :
  first_as (v :: rest) as_ = as_ v.
Proof. reflexivity. Qed.

(** Validated parameters of a positive length have an item 0 of the
    right type each. *)
Lemma validated_heads data d s :
  validated data d s ->
  ser_N s <> 0%nat ->
  exists p l bc ac lw dw da pa, heads s p l bc ac lw dw da pa.
Proof.
  intros [_ _ _ [L1 H1] [L2 H2] [L3 H3] [L4 H4] [L5 H5] [L6 H6] [L7 H7] [L8 H8]] HN.
  destruct s as [N ps ls bcs acs lws dws das pas]. simpl in *.
  destruct ps as [| pv ps]; [simpl in L1; congruence |].
  destruct ls as [| lv ls]; [simpl in L2; congruence |].
  destruct bcs as [| bcv bcs]; [simpl in L3; congruence |].
  destruct acs as [| acv acs]; [simpl in L4; congruence |].
  destruct lws as [| lwv lws]; [simpl in L5; congruence |].
  destruct dws as [| dwv dws]; [simpl in L6; congruence |].
  destruct das as [| dav das]; [simpl in L7; congruence |].
  destruct pas as [| pav pas]; [simpl in L8; congruence |].
  apply Forall_inv in H1, H2, H3, H4, H5, H6, H7, H8.
  apply isinstance_int_inv in H1, H5. destruct H1 as [p Hp], H5 as [lw Hlw].
  apply isinstance_str_inv in H2, H3, H4.
  destruct H2 as [l ->], H3 as [bc ->], H4 as [ac ->].
  apply isinstance_bool_inv in H6, H7, H8.
  destruct H6 as [dw ->], H7 as [da ->], H8 as [pa ->].
  exists p, l, bc, ac, lw, dw, da, pa.
  constructor; simpl; rewrite first_as_cons; auto.
Qed.

(** On anything but a 2-D array, a call from outside is validation
    followed by the single-series part. *)
Lemma add_boxplot_leaf data a self :
  (forall d, data = PArray d -> ndim d <> 2%nat) ->
  add_boxplot data a self =
  match validate data a with
  | Return (d, s) =>
      draw_series d (ser_position s) (ser_label s) (ser_box_color s)
        (ser_average_color s) (ser_linewidth s) (ser_draw_whiskers s)
        (ser_draw_average s) (ser_print_average s) self
  | Raise e => (Raise e, self)
  end.
Proof.
  intros Hleaf. unfold add_boxplot. simpl. rewrite add_boxplot_body_phases.
  destruct (validate data a) as [[d s] | e] eqn:Hv; [| reflexivity].
  apply validate_Return in Hv. destruct Hv as [Hd _ _ _ _ _ _ _ _ _ _].
  unfold dispatch. destruct (ndim d =? 2)%nat eqn:E; [| reflexivity].
  apply Nat.eqb_eq in E. now elim (Hleaf d Hd).
Qed.

(** ** Invariants of the method *)

Section Invariant.

Variable P : CustomBoxPlot -> Prop.
Hypothesis P_drawn : forall c, is_tick_call c = false -> stable P c.
Hypothesis P_registered : forall self p l, P self -> P (registered self p l).

Lemma draw_series_keeps d position label box_color average_color
    linewidth draw_whiskers draw_average print_average :
  label_readable position label ->
  respects P (fun _ => True)
    (draw_series d position label box_color average_color linewidth
       draw_whiskers draw_average print_average).
Proof.
  intros Hlabel. apply draw_series_respects; auto.
  intros p Hp. apply update_ticks_respects; [| auto].
  eapply Hlabel, returns_position_nonempty; eauto.
Qed.

Lemma add_boxplot_body_keeps recurse data a :
  (forall data' a', respects P (fun _ => True) (recurse data' a')) ->
  respects P (fun _ => True) (add_boxplot_body recurse data a).
Proof.
  intros Hrec.
  apply (respects_ext _ _ _ (fun self =>
    match validate data a with
    | Return (d, s) => dispatch recurse d s self
    | Raise e => (Raise e, self)
    end)); [apply add_boxplot_body_phases |].
  destruct (validate data a) as [[d s] | e] eqn:Hv;
    [| now apply respects_raise].
  apply validate_Return in Hv.
  unfold dispatch. destruct (ndim d =? 2)%nat.
  2:{ apply draw_series_keeps. eapply validated_label_readable; eauto. }
  apply respects_for_each. intros index _. unfold row_call.
  repeat (apply respects_bind; [now apply respects_lift | intros ? _]).
  apply Hrec.
Qed.

Lemma add_boxplot_rec_keeps frames data a :
  respects P (fun _ => True) (add_boxplot_rec frames data a).
Proof.
  revert data a. induction frames as [| frames IH]; intros data a; simpl.
  - now apply respects_raise.
  - now apply add_boxplot_body_keeps.
Qed.

(** Whether it returns or raises, [add_boxplot] keeps [P]. *)
Lemma add_boxplot_keeps data a self o self' :
  P self -> add_boxplot data a self = (o, self') -> P self'.
Proof.
  intros HP H. eapply (add_boxplot_rec_keeps 2 data a); eauto.
Qed.

End Invariant.

Lemma add_boxplot_registry_ok data a self o self' :
  registry_ok self -> add_boxplot data a self = (o, self') -> registry_ok self'.
Proof.
  apply (add_boxplot_keeps registry_ok).
  - intros c _ s Hs. exact Hs.
  - intros s p l. apply registered_registry_ok.
Qed.

Lemma add_boxplot_invariant data a self o self' :
  invariant self -> add_boxplot data a self = (o, self') -> invariant self'.
Proof.
  apply (add_boxplot_keeps invariant).
  - apply invariant_stable.
  - intros s p l [Hreg Hsync]. split.
    + now apply registered_registry_ok.
    + now apply registered_synced.
Qed.

Lemma init_Return figure ax_location self :
  init figure ax_location = Return self ->
  current_positions self = [] /\ current_ticklabels self = [] /\
  exists coords,
    unpack ax_location = Return coords /\
    add_subplot figure coords = Return (ax self).
Proof.
  unfold init.
  destruct (unpack ax_location) as [coords | e]; simpl; [| discriminate].
  destruct (add_subplot figure coords) as [handle | e] eqn:Hsub; simpl;
    [| discriminate].
  intros [= <-]. simpl. eauto.
Qed.

Lemma init_invariant figure ax_location self :
  init figure ax_location = Return self -> invariant self.
Proof.
  intros H. apply init_Return in H. destruct H as (Hp & Hl & _).
  split; [split |].
  - now rewrite Hp, Hl.
  - rewrite Hp. constructor.
  - now left.
Qed.

Lemma reachable_invariant self : reachable self -> invariant self.
Proof.
  induction 1 as [figure loc self Hinit | self data a o self' _ IH Hcall].
  - eapply init_invariant; eauto.
  - eapply add_boxplot_invariant; eauto.
Qed.

(** ** Validation *)

Lemma add_boxplot_phases data a self :
  add_boxplot data a self =
  match validate data a with
  | Return (d, s) => dispatch (add_boxplot_rec 1) d s self
  | Raise e => (Raise e, self)
  end.
Proof. apply add_boxplot_body_phases. Qed.

(** The exceptions of the validation phase: the four [raise] statements
    and the subscript [data.shape[0]]. *)
Lemma validate_Raise data a e :
  validate data a = Raise e ->
  taxonomy e <> None \/
  (e = OutOfRange /\ exists d, data = PArray d /\ shape d = []).
Proof.
  unfold validate. destruct data; try (intros [= <-]; left; discriminate).
  destruct (3 <=? ndim a0)%nat; [intros [= <-]; left; discriminate |].
  unfold shape0. destruct (shape a0) as [| N rest] eqn:Hs; simpl.
  - intros [= <-]. right. split; [reflexivity |]. now exists a0.
  - repeat match goal with
           | |- context [convert2sequence ?v ?n ?nm ?ty] =>
               let H := fresh "Hc" in
               destruct (convert2sequence v n nm ty) eqn:H; simpl;
               [| intros [= <-]; left;
                  apply convert2sequence_Raise in H;
                  destruct H as [-> | (len & _ & ->)]; discriminate]
           end.
    discriminate.
Qed.


Lemma validate_sources data a d s :
  validate data a = Return (d, s) -> normalised a s.
Proof.
  unfold validate. destruct data; try discriminate.
  destruct (3 <=? ndim a0)%nat; [discriminate |].
  destruct (shape0 a0) as [N | e]; simpl; [| discriminate].
  repeat match goal with
         | |- context [convert2sequence ?v ?n ?nm ?ty] =>
             let H := fresh "Hc" in
             destruct (convert2sequence v n nm ty) eqn:H; simpl;
             [| discriminate]
         end.
  intros [= <- <-]. now constructor.
Qed.

Lemma first_as_repeat {A} v N (as_ : pyobj -> outcome A) a :
  first_as (repeat v N) as_ = Return a -> as_ v = Return a.
Proof. destruct N; [discriminate | exact (fun H => H)]. Qed.

(** Item 0 of a normalised scalar is the scalar. *)
Lemma head_of_scalar {A} v N name ty l (as_ : pyobj -> outcome A) x :
  isinstance v ty = true ->
  convert2sequence v N name ty = Return l ->
  first_as l as_ = Return x ->
  as_ v = Return x.
Proof.
  intros Hv Hc Hhead. rewrite convert2sequence_scalar in Hc by assumption.
  injection Hc as <-. eapply first_as_repeat; eauto.
Qed.

(** A scalar position is the position every read of [position[0]]
    returns. *)
Lemma head_position_scalar data a d s p p' :
  validate data a = Return (d, s) ->
  int_value (position a) = Return p ->
  first_as (ser_position s) int_value = Return p' ->
  p' = p.
Proof.
  intros Hv Hp Hhead. apply validate_sources in Hv.
  pose proof (head_of_scalar _ _ _ _ _ _ _
                (int_value_isinstance _ _ Hp) (src_position _ _ Hv) Hhead).
  congruence.
Qed.

Lemma head_label_scalar data a d s l l' :
  validate data a = Return (d, s) ->
  label a = PStr l ->
  first_as (ser_label s) str_value = Return l' ->
  l' = l.
Proof.
  intros Hv Hl Hhead. apply validate_sources in Hv.
  pose proof (src_label _ _ Hv) as Hlab. rewrite Hl in Hlab.
  pose proof (head_of_scalar (PStr l) _ _ str _ _ _ eq_refl Hlab Hhead) as H.
  simpl in H. congruence.
Qed.

(** What a call on a 1-D array has done when it returns. *)
Lemma leaf_Return d a self self' :
  ndim d = 1%nat ->
  add_boxplot (PArray d) a self = (Return tt, self') ->
  exists s mean std min_val max_val p l bc ac lw dw da pa,
    validate (PArray d) a = Return (d, s) /\
    stats (flat d) = Return (mean, std, min_val, max_val) /\
    heads s p l bc ac lw dw da pa /\
    self' =
      registered
        (drawn self
           (series_calls p mean std min_val max_val bc ac lw dw da pa))
        p l.
Proof.
  intros Hdim H. rewrite add_boxplot_leaf in H
    by (intros d' [= <-]; rewrite Hdim; discriminate).
  destruct (validate (PArray d) a) as [[d' s] | e] eqn:Hv; [| discriminate].
  pose proof (validate_Return _ _ _ _ Hv) as Hval.
  assert (d' = d) as -> by (destruct Hval as [Hd]; congruence).
  destruct (stats (flat d)) as [[[[mean std] min_val] max_val] | e] eqn:Hst.
  2:{ rewrite (draw_series_stats_Raise _ _ _ _ _ _ _ _ _ e) in H by assumption.
      discriminate. }
  destruct (Nat.eq_dec (ser_N s) 0) as [HN | HN].
  - destruct Hval as [_ _ _ [Hlen _] _ _ _ _ _ _ _].
    rewrite HN in Hlen. apply length_zero_iff_nil in Hlen.
    rewrite Hlen in H. erewrite draw_series_empty in H by eassumption.
    discriminate.
  - destruct (validated_heads _ _ _ Hval HN)
      as (p & l & bc & ac & lw & dw & da & pa & Hheads).
    rewrite (draw_series_heads d s mean std min_val max_val
               p l bc ac lw dw da pa) in H by assumption.
    destruct (of_int p); [| discriminate].
    destruct (accepted_prefix _) as [prefix [e |]] eqn:Hacc; [discriminate |].
    apply accepted_prefix_all in Hacc. subst prefix.
    injection H as <-.
    exists s, mean, std, min_val, max_val, p, l, bc, ac, lw, dw, da, pa.
    auto.
Qed.

(** The position of a call that returns is within the range of the
    floats, and matplotlib has taken every primitive of the series. *)
Lemma leaf_Return_accepted d a s mean std min_val max_val p l bc ac lw dw da pa
    self self' :
  ndim d = 1%nat ->
  add_boxplot (PArray d) a self = (Return tt, self') ->
  validate (PArray d) a = Return (d, s) ->
  stats (flat d) = Return (mean, std, min_val, max_val) ->
  heads s p l bc ac lw dw da pa ->
  of_int p = Return (float_of_int p) /\
  Forall (fun c => refuses c = None)
    (series_calls p mean std min_val max_val bc ac lw dw da pa).
Proof.
  intros Hdim H Hv Hst Hheads. rewrite add_boxplot_leaf in H
    by (intros d' [= <-]; rewrite Hdim; discriminate).
  rewrite Hv in H.
  rewrite (draw_series_heads d s mean std min_val max_val
             p l bc ac lw dw da pa) in H by assumption.
  destruct (of_int p) as [x | e] eqn:Hx; [| discriminate].
  apply of_int_Return in Hx. subst x. split; [reflexivity |].
  destruct (accepted_prefix _) as [prefix [e |]] eqn:Hacc; [discriminate |].
  clear H. revert prefix Hacc.
  induction (series_calls p mean std min_val max_val bc ac lw dw da pa)
    as [| c rest IH]; intros prefix Hacc; [constructor |].
  simpl in Hacc. destruct (refuses c) as [[cls origin] |] eqn:Hc;
    [discriminate |].
  destruct (accepted_prefix rest) as [prefix' r] eqn:Hrest.
  injection Hacc as <- ->. constructor; [exact Hc | now apply (IH prefix')].
Qed.

(** ** The tick registry *)

Lemma registered_In self p l : In p (current_positions (registered self p l)).
Proof.
  unfold registered.
  destruct (contains p (current_positions self)) eqn:Hin.
  - now apply contains_In.
  - simpl. apply in_or_app. right. now left.
Qed.

Lemma lookup_app_new p l positions labels :
  List.length positions = List.length labels ->
  ~ In p positions ->
  lookup p (positions ++ [p]) (labels ++ [l]) = Some l.
Proof.
  revert labels. induction positions as [| q positions IH];
    intros [| l0 labels] Hlen Hin; simpl in *; try discriminate.
  - now rewrite Z.eqb_refl.
  - destruct (q =? p) eqn:E.
    + apply Z.eqb_eq in E. tauto.
    + apply IH; [congruence | tauto].
Qed.

(** A call on a 1-D array at a position already registered leaves the
    registry as it is, whether it returns or raises. *)
Lemma leaf_registered d a p self o self' :
  ndim d = 1%nat ->
  int_value (position a) = Return p ->
  In p (current_positions self) ->
  add_boxplot (PArray d) a self = (o, self') ->
  current_positions self' = current_positions self /\
  current_ticklabels self' = current_ticklabels self.
Proof.
  intros Hdim Hp Hin H. rewrite add_boxplot_leaf in H
    by (intros d' [= <-]; rewrite Hdim; discriminate).
  destruct (validate (PArray d) a) as [[d' s] | e] eqn:Hv.
  2:{ injection H as <- <-. now split. }
  set (P := fun st : CustomBoxPlot =>
              current_positions st = current_positions self /\
              current_ticklabels st = current_ticklabels self).
  assert (HP : P self) by now split.
  refine (proj1 (draw_series_respects P (fun _ => True) _ _ _ _ _ _ _ _ _
                   _ _ _ self o self' HP H)).
  - intros c _ st Hst. exact Hst.
  - auto.
  - intros p' Hp'. apply returns_lift in Hp'.
    rewrite (head_position_scalar _ _ _ _ p p' Hv Hp Hp').
    intros st o' st' [Hst1 Hst2] Hst.
    rewrite update_ticks_present in Hst by now rewrite Hst1.
    injection Hst as <- <-. now split.
Qed.

Lemma lookup_app_present p positions labels more_positions more_labels :
  List.length positions = List.length labels ->
  In p positions ->
  lookup p (positions ++ more_positions) (labels ++ more_labels) =
  lookup p positions labels.
Proof.
  revert labels. induction positions as [| q positions IH];
    intros [| l0 labels] Hlen Hin; simpl in *; try discriminate; try tauto.
  destruct (q =? p) eqn:E; [reflexivity |].
  apply IH; [congruence |]. destruct Hin as [-> | Hin]; [| assumption].
  now rewrite Z.eqb_refl in E.
Qed.

(** Whether it returns or raises, a call only appends to the
    registry. *)
Lemma add_boxplot_extends data a self o self' :
  add_boxplot data a self = (o, self') -> extends self self'.
Proof.
  apply (add_boxplot_keeps (extends self)).
  - intros c _ st Hst. exact Hst.
  - intros st p l (ps & ls & Hp & Hl & Hlen). unfold registered.
    destruct (contains p (current_positions st)).
    + now exists ps, ls.
    + exists (ps ++ [p]), (ls ++ [l]). simpl.
      rewrite Hp, Hl, <- !app_assoc, !length_app. simpl.
      repeat split. lia.
  - exists [], []. now rewrite !app_nil_r.
Qed.

(** C5.  The tick registry.  A new renderer has a well-formed registry
    (parallel lists of equal length, no position twice) and every
    [add_boxplot] call keeps it so.  When a call on one series at
    position [p] has returned, a second call at [p], with whatever
    label, leaves both lists as they are: [p] has exactly one entry, and
    its label is the first one seen - the one [p] already had, or, if
    [p] was new, the label of the first call.  More generally a call,
    on any data, only appends to the two lists, so that a registered
    position keeps its label for ever. *)
Theorem tick_registry_idempotent :
  (forall figure ax_location self,
      init figure ax_location = Return self -> registry_ok self) /\
  (forall self data a o self',
      registry_ok self ->
      add_boxplot data a self = (o, self') ->
      registry_ok self') /\
  (forall self data a o self',
      registry_ok self ->
      add_boxplot data a self = (o, self') ->
      extends self self' /\
      forall p, In p (current_positions self) ->
                tick_label self' p = tick_label self p) /\
  (forall self d1 a1 self1 d2 a2 o2 self2 p,
      registry_ok self ->
      ndim d1 = 1%nat -> ndim d2 = 1%nat ->
      int_value (position a1) = Return p ->
      int_value (position a2) = Return p ->
      add_boxplot (PArray d1) a1 self = (Return tt, self1) ->
      add_boxplot (PArray d2) a2 self1 = (o2, self2) ->
      current_positions self2 = current_positions self1 /\
      current_ticklabels self2 = current_ticklabels self1 /\
      count_occ Z.eq_dec (current_positions self2) p = 1%nat /\
      (In p (current_positions self) ->
       tick_label self2 p = tick_label self p) /\
      (forall l1, ~ In p (current_positions self) -> label a1 = PStr l1 ->
       tick_label self2 p = Some l1)).
Proof.
  split; [| split; [| split]].
  - intros figure loc self H. apply init_invariant in H. apply H.
  - intros self data a o self'. apply add_boxplot_registry_ok.
  - intros self data a o self' [Hlen _] H.
    pose proof (add_boxplot_extends _ _ _ _ _ H) as Hext.
    split; [exact Hext |]. intros p Hin.
    destruct Hext as (ps & ls & Hp & Hl & _).
    unfold tick_label. rewrite Hp, Hl. now apply lookup_app_present.
  - intros self d1 a1 self1 d2 a2 o2 self2 p Hreg Hd1 Hd2 Hp1 Hp2 H1 H2.
    pose proof (add_boxplot_registry_ok _ _ _ _ _ Hreg H1) as Hreg1.
    destruct (leaf_Return _ _ _ _ Hd1 H1)
      as (s & mean & std & mn & mx & p' & l & bc & ac & lw & dw & da & pa
          & Hv & _ & Hheads & Hself1).
    assert (p' = p) as ->
      by (eapply head_position_scalar; eauto; apply Hheads).
    assert (Hin1 : In p (current_positions self1))
      by (rewrite Hself1; apply registered_In).
    destruct (leaf_registered _ _ _ _ _ _ Hd2 Hp2 Hin1 H2) as [Hpos Hlab].
    split; [exact Hpos |]. split; [exact Hlab |]. split; [| split].
    + rewrite Hpos. apply NoDup_count_occ'; [apply Hreg1 | exact Hin1].
    + intros Hin. unfold tick_label. rewrite Hpos, Hlab.
      destruct (leaf_registered _ _ _ _ _ _ Hd1 Hp1 Hin H1) as [-> ->].
      reflexivity.
    + intros l1 Hnotin Hl1. unfold tick_label. rewrite Hpos, Hlab.
      assert (l = l1) as ->
        by (eapply head_label_scalar; eauto; apply Hheads).
      rewrite Hself1. unfold registered. simpl.
      apply contains_not_In in Hnotin. rewrite Hnotin. simpl.
      apply contains_not_In in Hnotin.
      apply lookup_app_new; [apply Hreg | exact Hnotin].
Qed.

(** ** The ticks on the surface *)

(** C6.  Tick ordering.  On every renderer a program can reach (a
    constructed one after any sequence of [add_boxplot] calls), once a
    position is registered the surface holds the whole registry as last
    pushed: the tick locations strictly ascending, as many labels as
    locations, and each label at the index of its position.  In
    particular, after calls on single series at positions 3, 1, 2 with
    labels [l3], [l1], [l2], the surface holds locations [1; 2; 3] with
    labels [l1; l2; l3]. *)
Theorem ticks_pushed_ascending :
  (forall self,
      reachable self ->
      current_positions self <> [] ->
      exists ticks ticklabels,
        last_xticks (ax self) = Some ticks /\
        last_xticklabels (ax self) = Some ticklabels /\
        StronglySorted Z.lt ticks /\
        List.length ticks = List.length ticklabels /\
        Permutation (combine ticks ticklabels)
          (combine (current_positions self) (current_ticklabels self))) /\
  (forall figure ax_location self0 d3 a3 self1 d1 a1 self2 d2 a2 self3 l3 l1 l2,
      init figure ax_location = Return self0 ->
      ndim d3 = 1%nat -> ndim d1 = 1%nat -> ndim d2 = 1%nat ->
      position a3 = PInt 3 -> label a3 = PStr l3 ->
      position a1 = PInt 1 -> label a1 = PStr l1 ->
      position a2 = PInt 2 -> label a2 = PStr l2 ->
      add_boxplot (PArray d3) a3 self0 = (Return tt, self1) ->
      add_boxplot (PArray d1) a1 self1 = (Return tt, self2) ->
      add_boxplot (PArray d2) a2 self2 = (Return tt, self3) ->
      last_xticks (ax self3) = Some [1; 2; 3] /\
      last_xticklabels (ax self3) = Some [l1; l2; l3]).
Proof.
  split.
  - intros self Hreach Hne.
    destruct (reachable_invariant self Hreach) as [[Hlen Hnodup] Hsync].
    destruct Hsync as [Hempty | [Ht Hl]]; [contradiction |].
    eexists _, _. split; [exact Ht |]. split; [exact Hl |].
    now apply sorted_registry.
  - intros figure loc self0 d3 a3 self1 d1 a1 self2 d2 a2 self3 l3 l1 l2
      Hinit Hd3 Hd1 Hd2 Hp3 Hl3 Hp1 Hl1 Hp2 Hl2 H3 H1 H2.
    apply init_Return in Hinit. destruct Hinit as (Hpos0 & Hlab0 & _).
    destruct (leaf_Return _ _ _ _ Hd3 H3)
      as (s3 & ? & ? & ? & ? & p3 & l3' & ? & ? & ? & ? & ? & ?
          & Hv3 & _ & Hh3 & ->).
    assert (p3 = 3) as ->
      by (eapply head_position_scalar; eauto; [now rewrite Hp3 | apply Hh3]).
    assert (l3' = l3) as ->
      by (eapply head_label_scalar; eauto; apply Hh3).
    destruct (leaf_Return _ _ _ _ Hd1 H1)
      as (s1 & ? & ? & ? & ? & p1 & l1' & ? & ? & ? & ? & ? & ?
          & Hv1 & _ & Hh1 & ->).
    assert (p1 = 1) as ->
      by (eapply head_position_scalar; eauto; [now rewrite Hp1 | apply Hh1]).
    assert (l1' = l1) as ->
      by (eapply head_label_scalar; eauto; apply Hh1).
    destruct (leaf_Return _ _ _ _ Hd2 H2)
      as (s2 & ? & ? & ? & ? & p2 & l2' & ? & ? & ? & ? & ? & ?
          & Hv2 & _ & Hh2 & ->).
    assert (p2 = 2) as ->
      by (eapply head_position_scalar; eauto; [now rewrite Hp2 | apply Hh2]).
    assert (l2' = l2) as ->
      by (eapply head_label_scalar; eauto; apply Hh2).
    unfold registered, drawn.
    cbn [ax current_positions current_ticklabels].
    rewrite Hpos0, Hlab0.
    cbn [contains existsb app Z.eqb Pos.eqb orb ax current_positions
         current_ticklabels].
    apply last_pushed.
Qed.

(** ** Broadcasting *)

(** Two values of one parameter that normalise alike give the same
    validation. *)
Lemma validate_param_ext d N a k x y :
  shape0 d = Return N ->
  (forall name,
      convert2sequence x N name (param_type k) =
      convert2sequence y N name (param_type k)) ->
  (k = Pposition -> label a <> PNone) ->
  (k = Plabel -> x <> PNone /\ y <> PNone) ->
  validate (PArray d) (set_param k x a) = validate (PArray d) (set_param k y a).
Proof.
  intros HN Hconv Hpos Hlab. unfold validate.
  destruct (3 <=? ndim d)%nat; [reflexivity |]. rewrite HN.
  cbn [obind].
  destruct k;
    cbn [set_param position label box_color average_color linewidth
         draw_whiskers draw_average print_average param_type] in *;
    try (rewrite Hconv; reflexivity).
  - rewrite !(label_given (label a)) by auto. now rewrite Hconv.
  - destruct (Hlab eq_refl) as [Hx Hy].
    rewrite (label_given x), (label_given y) by assumption.
    now rewrite Hconv.
Qed.

Lemma isinstance_int_not_str v :
  isinstance v int = true -> isinstance v str = false.
Proof. destruct v; simpl; congruence. Qed.

(** An omitted label with an [int] position is refused for 'label',
    before anything is drawn. *)
Lemma omitted_label_scalar_position d N a self :
  (ndim d < 3)%nat ->
  shape0 d = Return N ->
  label a = PNone ->
  isinstance (position a) int = true ->
  add_boxplot (PArray d) a self = (Raise (ParamType "label" str N), self).
Proof.
  intros Hdim HN Hl Hp. rewrite add_boxplot_phases. unfold validate.
  apply Nat.leb_gt in Hdim. rewrite Hdim, HN, Hl. cbn [obind].
  rewrite convert2sequence_scalar by assumption. cbn [obind].
  unfold label_or_position, deepcopy, convert2sequence.
  rewrite (isinstance_int_not_str _ Hp).
  destruct (position a); try discriminate; reflexivity.
Qed.

(** With the label omitted, [N] copies of an [int] position draw
    nothing either. *)
Lemma omitted_label_repeated_position d N a v items self :
  shape0 d = Return N ->
  label a = PNone ->
  isinstance v int = true ->
  items = PList (repeat v N) \/ items = PTuple (repeat v N) ->
  snd (add_boxplot (PArray d) (set_param Pposition items a) self) = self.
Proof.
  intros HN Hl Hv Hitems. rewrite add_boxplot_phases.
  destruct (validate _ _) as [[d' s] | e] eqn:Hval; [| reflexivity].
  pose proof (validate_Return _ _ _ _ Hval) as Hvd.
  pose proof (src_label _ _ (validate_sources _ _ _ _ Hval)) as Hlab.
  cbn [set_param position label] in Hlab. rewrite Hl in Hlab.
  assert (d' = d) as -> by (destruct Hvd as [Hd]; congruence).
  assert (HNs : ser_N s = N)
    by (destruct Hvd as [_ _ Hs]; congruence).
  destruct N as [| n].
  - destruct Hvd as [_ _ _ [Hlen _] _ _ _ _ _ _ _].
    rewrite HNs in Hlen. apply length_zero_iff_nil in Hlen.
    unfold dispatch. rewrite HNs, Hlen.
    destruct (ndim d =? 2)%nat; [reflexivity |].
    destruct (stats (flat d)) as [st | e] eqn:Hst.
    + now erewrite draw_series_empty by eassumption.
    + now erewrite draw_series_stats_Raise by eassumption.
  - exfalso. rewrite HNs in Hlab. unfold convert2sequence in Hlab.
    destruct v; try discriminate Hv;
      destruct Hitems as [-> | ->]; simpl in Hlab;
      rewrite repeat_length, Nat.eqb_refl in Hlab; discriminate.
Qed.

Lemma broadcast_same_call d N a k v items self :
  shape0 d = Return N ->
  isinstance v (param_type k) = true ->
  items = PList (repeat v N) \/ items = PTuple (repeat v N) ->
  (k = Pposition -> label a <> PNone) ->
  add_boxplot (PArray d) (set_param k items a) self =
  add_boxplot (PArray d) (set_param k v a) self.
Proof.
  intros HN Hv Hitems Hpos.
  assert (Hne : v <> PNone) by (eapply isinstance_not_None; eauto).
  rewrite !add_boxplot_phases.
  rewrite (validate_param_ext d N a k items v); auto.
  - intros name. rewrite (convert2sequence_scalar v) by assumption.
    destruct Hitems as [-> | ->].
    + now apply convert2sequence_repeat_list.
    + now apply convert2sequence_repeat_tuple.
  - intros _. split; [destruct Hitems as [-> | ->]; discriminate | assumption].
Qed.

(** X16.  Broadcasting over the first axis.  With [N = data.shape[0]]
    - the number of rows of a 2-D array, and the number of samples of a
    1-D one - giving any one of the eight parameters as a scalar [v] of
    its element type, or as the list, or the tuple, of [N] copies of
    [v], leaves the same renderer: the same primitives on the surface
    in the same order, the same registry.  The two calls also end
    alike, returning or raising the same exception, except possibly
    when the parameter is [position] and the label is omitted, the
    label being then taken from [position] as it was passed. *)
Theorem scalar_broadcast d N a k v items self :
  shape0 d = Return N ->
  isinstance v (param_type k) = true ->
  items = PList (repeat v N) \/ items = PTuple (repeat v N) ->
  snd (add_boxplot (PArray d) (set_param k items a) self) =
    snd (add_boxplot (PArray d) (set_param k v a) self) /\
  (k <> Pposition \/ label a <> PNone ->
   add_boxplot (PArray d) (set_param k items a) self =
     add_boxplot (PArray d) (set_param k v a) self).
Proof.
  intros HN Hv Hitems. split.
  - destruct (label a) eqn:Hl;
      try (erewrite broadcast_same_call; eauto; intros _; congruence).
    destruct k;
      try (erewrite broadcast_same_call; eauto; discriminate).
    destruct (3 <=? ndim d)%nat eqn:Hdim.
    + rewrite !add_boxplot_phases. unfold validate. now rewrite Hdim.
    + apply Nat.leb_gt in Hdim.
      rewrite (omitted_label_repeated_position d N a v items) by assumption.
      rewrite (omitted_label_scalar_position d N) by assumption.
      reflexivity.
  - intros Hside. eapply broadcast_same_call; eauto.
    intros ->. destruct Hside; congruence.
Qed.

(** ** The box and the whiskers *)

Lemma registered_ax self p l :
  exists ticks,
    ax (registered self p l) = ax self ++ ticks /\
    Forall (fun c => is_tick_call c = true) ticks.
Proof.
  unfold registered. destruct (contains p (current_positions self)).
  - exists []. split; [now rewrite app_nil_r | constructor].
  - eexists. split; [reflexivity |]. repeat constructor.
Qed.

(** C8 (amended).  The box and the whiskers of one series.  When a call
    on a 1-D array returns, validation has passed, the four statistics
    were computed, the position [p] has been converted to the float [x],
    and the surface has received, after what it held before: first the
    box, whatever the flags - an unfilled rectangle with lower left
    corner [(x - 0.1, mean - std)], width 0.2 and height
    [(mean + std) - (mean - std)], each the result of a binary64
    operation, in [box_color] and [linewidth]; then, exactly when
    [draw_whiskers] is true, the four whisker segments - the two bars at
    [p], from [min] to [mean - std] and from [mean + std] to [max], and
    the two caps at [min] and at [max] from [x - 0.1] to [x + 0.1] - in
    [box_color] and [linewidth]; then only the average segment, the
    text and the tick setters.  [position], [box_color], [linewidth] and
    [draw_whiskers] stand for item 0 of the normalised parameter, which
    is the value itself when the parameter was passed as a scalar.  The
    right edge and the top of the box are where matplotlib puts them,
    at [(x - 0.1) + 0.2] and [(mean - std) + height]: up to rounding
    only are they [x + 0.1] and [mean + std]. *)
Theorem box_and_whiskers d a self self' :
  ndim d = 1%nat ->
  add_boxplot (PArray d) a self = (Return tt, self') ->
  exists s mean std min_val max_val p x bc lw dw ac da pa ticks,
    validate (PArray d) a = Return (d, s) /\
    stats (flat d) = Return (mean, std, min_val, max_val) /\
    first_as (ser_position s) int_value = Return p /\
    of_int p = Return x /\
    first_as (ser_box_color s) str_value = Return bc /\
    first_as (ser_linewidth s) int_value = Return lw /\
    first_as (ser_draw_whiskers s) bool_value = Return dw /\
    (isinstance (position a) int = true -> int_value (position a) = Return p) /\
    (isinstance (box_color a) str = true -> box_color a = PStr bc) /\
    (isinstance (linewidth a) int = true -> int_value (linewidth a) = Return lw) /\
    (isinstance (draw_whiskers a) bool_ = true -> draw_whiskers a = PBool dw) /\
    ax self' =
      ax self
      ++ [add_patch_Rectangle (fsub x f0_1) (fsub mean std) f0_2
            (fsub (fadd mean std) (fsub mean std)) false bc lw]
      ++ (if dw
          then
            [plot (at_int p) (at_int p) min_val (fsub mean std) bc lw;
             plot (at_int p) (at_int p) (fadd mean std) max_val bc lw;
             plot (at_float (fsub x f0_1)) (at_float (fadd x f0_1))
               min_val min_val bc lw;
             plot (at_float (fsub x f0_1)) (at_float (fadd x f0_1))
               max_val max_val bc lw]
          else [])
      ++ when da [average_call p mean ac lw]
      ++ when pa [text_call p mean ac]
      ++ ticks /\
    Forall (fun c => is_tick_call c = true) ticks.
Proof.
  intros Hdim H.
  destruct (leaf_Return _ _ _ _ Hdim H)
    as (s & mean & std & mn & mx & p & l & bc & ac & lw & dw & da & pa
        & Hv & Hst & Hheads & ->).
  destruct (leaf_Return_accepted _ _ _ _ _ _ _ _ _ _ _ _ _ _ _ _ _
              Hdim H Hv Hst Hheads) as [Hx _].
  destruct (registered_ax
              (drawn self (series_calls p mean std mn mx bc ac lw dw da pa))
              p l) as (ticks & Hax & Hticks).
  pose proof (validate_sources _ _ _ _ Hv) as Hsrc.
  destruct Hheads as [Hp Hl Hbc Hac Hlw Hdw Hda Hpa].
  exists s, mean, std, mn, mx, p, (float_of_int p), bc, lw, dw, ac, da, pa, ticks.
  repeat match goal with |- _ /\ _ => split end; auto.
  - intros Hi. eapply head_of_scalar; [exact Hi | apply Hsrc | exact Hp].
  - intros Hi.
    pose proof (head_of_scalar _ _ _ _ _ _ _ Hi (src_box_color _ _ Hsrc) Hbc) as E.
    destruct (box_color a); simpl in E; congruence.
  - intros Hi. eapply head_of_scalar; [exact Hi | apply Hsrc | exact Hlw].
  - intros Hi.
    pose proof (head_of_scalar _ _ _ _ _ _ _ Hi
                  (src_draw_whiskers _ _ Hsrc) Hdw) as E.
    destruct (draw_whiskers a); simpl in E; congruence.
  - rewrite Hax. unfold drawn, series_calls, box_call, whisker_calls, when.
    cbn [ax]. repeat (rewrite <- app_assoc; cbn [app]). reflexivity.
Qed.

(** ** The edges of the input space *)

(** C9 (amended).  Unguarded indexing.  On a 0-dimensional array the
    call raises IndexError out of [data.shape[0]], whatever the other
    arguments, and nothing is drawn.  On an empty 1-D array with every
    parameter a scalar of its element type (so with a string label),
    validation passes with [N = 0]; the call then ends, before drawing
    anything, with the exception of the first numeric reduction that
    raises on the empty array, and with IndexError out of [position[0]]
    when all four return.  Neither exception belongs to the documented
    taxonomy. *)
Theorem unguarded_indexing :
  (forall d a self,
      shape d = [] ->
      add_boxplot (PArray d) a self = (Raise OutOfRange, self)) /\
  (forall d a self,
      shape d = [0%nat] ->
      scalar_args a ->
      validate (PArray d) a = Return (d, mk_series 0 [] [] [] [] [] [] [] []) /\
      add_boxplot (PArray d) a self =
        match stats (flat d) with
        | Return _ => (Raise OutOfRange, self)
        | Raise e => (Raise e, self)
        end /\
      forall e self', add_boxplot (PArray d) a self = (Raise e, self') ->
                      taxonomy e = None) /\
  exn_class OutOfRange = IndexError /\ taxonomy OutOfRange = None.
Proof.
  split; [| split; [| now split]].
  - intros d a self Hs. rewrite add_boxplot_phases.
    unfold validate, ndim, shape0. now rewrite Hs.
  - intros d a self Hs Ha.
    assert (Hv : validate (PArray d) a =
                 Return (d, mk_series 0 [] [] [] [] [] [] [] [])).
    { rewrite (validate_scalars d a 0); auto.
      - unfold ndim. rewrite Hs. simpl. lia.
      - unfold shape0. now rewrite Hs. }
    assert (Hcall : add_boxplot (PArray d) a self =
                    match stats (flat d) with
                    | Return _ => (Raise OutOfRange, self)
                    | Raise e => (Raise e, self)
                    end).
    { rewrite add_boxplot_leaf
        by (intros d' [= <-]; unfold ndim; rewrite Hs; discriminate).
      rewrite Hv. cbn [ser_position ser_label ser_box_color
                       ser_average_color ser_linewidth ser_draw_whiskers
                       ser_draw_average ser_print_average].
      destruct (stats (flat d)) as [v | e] eqn:Hst.
      - now erewrite draw_series_empty by eassumption.
      - now erewrite draw_series_stats_Raise by eassumption. }
    split; [exact Hv |]. split; [exact Hcall |].
    intros e self' H. rewrite Hcall in H. unfold stats in H.
    destruct (nanmean (flat d)); simpl in H;
      [| injection H as <- _; reflexivity].
    destruct (nanstd (flat d)); simpl in H;
      [| injection H as <- _; reflexivity].
    destruct (nanmin (flat d)); simpl in H;
      [| injection H as <- _; reflexivity].
    destruct (nanmax (flat d)); simpl in H;
      injection H as <- _; reflexivity.
Qed.

(** No rows, no effect.  On a 2-D array with zero rows, with every
    parameter a scalar of its element type - so with a string for the
    label - the call returns and the renderer is as before: nothing
    drawn, both tick lists unchanged. *)
Lemma no_rows_no_effect d ncols a self :
  shape d = [0%nat; ncols] ->
  scalar_args a ->
  add_boxplot (PArray d) a self = (Return tt, self).
Proof.
  intros Hs Ha. rewrite add_boxplot_phases.
  rewrite (validate_scalars d a 0); auto.
  - unfold dispatch, ndim. rewrite Hs. reflexivity.
  - unfold ndim. rewrite Hs. simpl. lia.
  - unfold shape0. now rewrite Hs.
Qed.

End Properties.

(** * The class at work

    Calls on concrete arguments, over the reference reductions, the
    reference surface and the reference figure. *)

Lemma with_defaults_scalar p l :
  scalar_args (with_defaults (PInt p) (PStr l)).
Proof. intros k. destruct k; reflexivity. Qed.

(** The demo of the module: a 2-D array at positions (1, 2), then a 1-D
    array at position 3. *)
Example demo_ticks :
  let data1 := array2 3 [[0; 1; 2]; [2; 2; 2]]%float in
  let data2 := array1 [1; 3]%float in
  let self1 :=
    snd (run_add_boxplot data1
           (with_defaults (PTuple [PInt 1; PInt 2])
              (PTuple [PStr "Data1.1"; PStr "Data1.2"])) fresh) in
  let self2 :=
    snd (run_add_boxplot data2 (with_defaults (PInt 3) (PStr "Data2")) self1) in
  current_positions self2 = [1; 2; 3] /\
  current_ticklabels self2 = ["Data1.1"; "Data1.2"; "Data2"]%string /\
  last_xticks (ax self2) = Some [1; 2; 3].
Proof. vm_compute. repeat split. Qed.

(** The reference reductions skip NaN: of 1, NaN, 3 the mean is 2, the
    deviation 1, the minimum 1 and the maximum 3. *)
Example nan_skipped :
  @stats reference [1; nan; 3]%float = Return (2, 1, 1, 3)%float.
Proof. reflexivity. Qed.

(** The position as a float.  [position[0] - 0.1] converts the [int]
    first: beyond 2^53 it is rounded - at 2^53 + 1 the box starts at
    2^53 - and beyond the range of the floats the conversion raises
    OverflowError, before anything is drawn. *)
Example position_as_float :
  of_int (2 ^ 53 + 1) = Return 9007199254740992%float /\
  fsub 9007199254740992 f0_1 = 9007199254740992%float /\
  run_add_boxplot (PArray samples)
    (with_defaults (PInt (10 ^ 400)) (PStr "a")) fresh
    = (Raise IntTooLarge, fresh) /\
  exn_class IntTooLarge = OverflowError.
Proof. vm_compute. repeat split. Qed.

(** C1.  The omitted label.  The signature documents [label] as an
    optional int or sequence of int, with "Default : None, means that
    the label is position parameter", and lines 140-141 copy [position]
    into [label]; line 151 then normalises [label] against [str].  So
    [add_boxplot(numpy.array([1., 2., 3.]), 5)] registers no tick "5":
    it raises the TypeError of parameter 'label' and leaves the renderer
    untouched. *)
Theorem omitted_label_refused :
  run_add_boxplot (array1 [1; 2; 3]%float) (with_defaults (PInt 5) PNone) fresh
    = (Raise (ParamType "label" str 3), fresh) /\
  exn_class (ParamType "label" str 3) = TypeError.
Proof. split; reflexivity. Qed.

(** C2.  The series count of a 1-D array.  Line 149 takes
    [N = data.shape[0]] whatever the dimension, so for a 1-D array [N]
    is the number of samples: on three samples a position and a label
    given as sequences of length 1 are refused with the ValueError of a
    wrong length (3 expected), while sequences of length 3 are accepted
    - and only their item 0 is used. *)
Theorem samples_counted_as_series :
  run_add_boxplot (array1 [1; 2; 3]%float)
    (with_defaults (PList [PInt 5]) (PList [PStr "a"])) fresh
    = (Raise (ParamLength "position" int 3 1), fresh) /\
  (let (o, self) :=
     run_add_boxplot (array1 [1; 2; 3]%float)
       (with_defaults (PList [PInt 5; PInt 6; PInt 7])
          (PList [PStr "a"; PStr "b"; PStr "c"])) fresh in
   o = Return tt /\
   current_positions self = [5] /\
   current_ticklabels self = ["a"%string]).
Proof. vm_compute. repeat split. Qed.


(** C4.  The constructor checks nothing.  The class documents
    [ax_location] as a tuple that "must contains 3 positive integers",
    and a TypeError "if ... the length of the Tuple is not 3"; the
    constructor is the single call of [figure.add_subplot] on the
    unpacked [ax_location].
    So on [ax_location=()], which is no triple, it calls
    [add_subplot()], which matplotlib answers with the subplot
    (1, 1, 1) whatever it does on other arguments: the constructor
    returns a renderer on that subplot, with an empty registry. *)
Theorem constructor_accepts_no_coordinates :
  positive_triple (PTuple []) = false /\
  forall other, init (Matplotlib.figure other) (PTuple []) = Return fresh.
Proof. split; reflexivity. Qed.

(** C5 at work: two calls at position 5, labelled "first" then
    "second". *)
Lemma tick_registry_idempotent_witness :
  let d1 := {| shape := [2%nat]; flat := [1; 3]%float |} in
  let d2 := {| shape := [2%nat]; flat := [2; 4]%float |} in
  let a1 := with_defaults (PInt 5) (PStr "first") in
  let a2 := with_defaults (PInt 5) (PStr "second") in
  let self1 := snd (run_add_boxplot (PArray d1) a1 fresh) in
  let self2 := snd (run_add_boxplot (PArray d2) a2 self1) in
  current_positions self2 = current_positions self1 /\
  current_ticklabels self2 = current_ticklabels self1 /\
  count_occ Z.eq_dec (current_positions self2) 5 = 1%nat /\
  (In 5 (current_positions fresh) -> tick_label self2 5 = tick_label fresh 5) /\
  (forall l1, ~ In 5 (current_positions fresh) -> label a1 = PStr l1 ->
              tick_label self2 5 = Some l1).
Proof.
  cbv zeta.
  apply (proj2 (proj2 (proj2 (@tick_registry_idempotent reference
                                 Matplotlib.surface)))
           fresh
           {| shape := [2%nat]; flat := [1; 3]%float |}
           (with_defaults (PInt 5) (PStr "first"))
           _
           {| shape := [2%nat]; flat := [2; 4]%float |}
           (with_defaults (PInt 5) (PStr "second"))
           (Return tt)).
  - split; [reflexivity | constructor].
  - reflexivity.
  - reflexivity.
  - reflexivity.
  - reflexivity.
  - vm_compute. reflexivity.
  - vm_compute. reflexivity.
Defined.

(** C6 at work: positions 3, 1, 2 on a new renderer. *)
Lemma ticks_pushed_ascending_witness :
  (exists ticks ticklabels,
      last_xticks (ax after_3_1_2) = Some ticks /\
      last_xticklabels (ax after_3_1_2) = Some ticklabels /\
      StronglySorted Z.lt ticks /\
      List.length ticks = List.length ticklabels /\
      Permutation (combine ticks ticklabels)
        (combine (current_positions after_3_1_2)
           (current_ticklabels after_3_1_2))) /\
  last_xticks (ax after_3_1_2) = Some [1; 2; 3] /\
  last_xticklabels (ax after_3_1_2) = Some ["a"; "b"; "c"]%string.
Proof.
  split.
  - apply (proj1 (@ticks_pushed_ascending reference Matplotlib.surface)).
    + apply (@reachable_call reference Matplotlib.surface after_3_1
               (PArray samples) (with_defaults (PInt 2) (PStr "b")) (Return tt));
        [| vm_compute; reflexivity].
      apply (@reachable_call reference Matplotlib.surface after_3
               (PArray samples) (with_defaults (PInt 1) (PStr "a")) (Return tt));
        [| vm_compute; reflexivity].
      apply (@reachable_call reference Matplotlib.surface fresh
               (PArray samples) (with_defaults (PInt 3) (PStr "c")) (Return tt));
        [| vm_compute; reflexivity].
      apply (@reachable_init reference Matplotlib.surface sample_figure
               default_ax_location).
      reflexivity.
    + discriminate.
  - apply (proj2 (@ticks_pushed_ascending reference Matplotlib.surface)
             sample_figure default_ax_location fresh
             samples (with_defaults (PInt 3) (PStr "c")) after_3
             samples (with_defaults (PInt 1) (PStr "a")) after_3_1
             samples (with_defaults (PInt 2) (PStr "b")) after_3_1_2
             "c"%string "a"%string "b"%string);
      try reflexivity; vm_compute; reflexivity.
Defined.

(** C7.  One series, one value.  A 1-D array is one series, so the
    sequence of one value should do what the value does; but line 149
    counts the samples of a 1-D array as its series.  On three samples,
    [box_color=['blue']] is refused with the ValueError of a wrong
    length (3 expected) and nothing is drawn, where [box_color='blue']
    returns with eight primitives on the surface: the box, the four
    whisker segments, the average segment and the two tick setters. *)
Theorem one_series_sequence_refused :
  run_add_boxplot (array1 [1; 2; 3]%float)
    (set_param Pbox_color (PList [PStr "blue"])
       (with_defaults (PInt 5) (PStr "a"))) fresh
    = (Raise (ParamLength "box_color" str 3 1), fresh) /\
  exn_class (ParamLength "box_color" str 3 1) = ValueError /\
  (let (o, self) :=
     run_add_boxplot (array1 [1; 2; 3]%float)
       (set_param Pbox_color (PStr "blue")
          (with_defaults (PInt 5) (PStr "a"))) fresh in
   o = Return tt /\
   List.length (ax self) = 8%nat /\
   current_positions self = [5]).
Proof. vm_compute. repeat split. Qed.

(** X16 at work: one colour for the two rows of a 2-D array. *)
Lemma scalar_broadcast_witness :
  let d := {| shape := [2%nat; 2%nat]; flat := [0; 0; 1; 1]%float |} in
  let a :=
    with_defaults (PTuple [PInt 1; PInt 2]) (PTuple [PStr "a"; PStr "b"]) in
  let blue := PStr "blue" in
  snd (run_add_boxplot (PArray d) (set_param Pbox_color (PList [blue; blue]) a)
         fresh) =
    snd (run_add_boxplot (PArray d) (set_param Pbox_color blue a) fresh) /\
  (Pbox_color <> Pposition \/ label a <> PNone ->
   run_add_boxplot (PArray d) (set_param Pbox_color (PList [blue; blue]) a)
     fresh =
   run_add_boxplot (PArray d) (set_param Pbox_color blue a) fresh).
Proof.
  cbv zeta.
  apply (@scalar_broadcast reference Matplotlib.surface
           {| shape := [2%nat; 2%nat]; flat := [0; 0; 1; 1]%float |}
           2%nat
           (with_defaults (PTuple [PInt 1; PInt 2])
              (PTuple [PStr "a"; PStr "b"]))
           Pbox_color (PStr "blue") (PList [PStr "blue"; PStr "blue"]) fresh).
  - reflexivity.
  - reflexivity.
  - left. reflexivity.
Defined.

(** C8: the box does not span [position - 0.1, position + 0.1].  At
    position 5 (samples 1 and 3, so mean 2 and deviation 1) the call
    returns and the first primitive is the rectangle at
    [x = 5 - 0.1] of width 0.2, whose right edge [x + 0.2] is not the
    float [5 + 0.1] but the next one above it; the caps of the whiskers
    do end at [5 + 0.1]. *)
Lemma box_edge_rounded :
  run_add_boxplot (PArray samples) (with_defaults (PInt 5) (PStr "a")) fresh
    = (Return tt, at_5) /\
  nth_error (ax at_5) 0 =
    Some (add_patch_Rectangle (fsub 5 f0_1) 1 f0_2 2 false "black" 2) /\
  nth_error (ax at_5) 3 =
    Some (plot (at_float (fsub 5 f0_1)) (at_float (fadd 5 f0_1)) 1 1
            "black" 2) /\
  (fadd (fsub 5 f0_1) f0_2 =? fadd 5 f0_1)%float = false /\
  (fadd 5 f0_1 <? fadd (fsub 5 f0_1) f0_2)%float = true /\
  next_up (fadd 5 f0_1) = fadd (fsub 5 f0_1) f0_2.
Proof. vm_compute. repeat split. Qed.

(** C8 (amended) at work: samples 1 and 3 at position 5. *)
Lemma box_and_whiskers_witness :
  exists s mean std min_val max_val p x bc lw dw ac da pa ticks,
    validate (PArray samples) (with_defaults (PInt 5) (PStr "a"))
      = Return (samples, s) /\
    @stats reference (flat samples) = Return (mean, std, min_val, max_val) /\
    first_as (ser_position s) int_value = Return p /\
    of_int p = Return x /\
    first_as (ser_box_color s) str_value = Return bc /\
    first_as (ser_linewidth s) int_value = Return lw /\
    first_as (ser_draw_whiskers s) bool_value = Return dw /\
    (isinstance (PInt 5) int = true -> int_value (PInt 5) = Return p) /\
    (isinstance (PStr "black") str = true -> PStr "black" = PStr bc) /\
    (isinstance (PInt 2) int = true -> int_value (PInt 2) = Return lw) /\
    (isinstance (PBool true) bool_ = true -> PBool true = PBool dw) /\
    ax at_5 =
      ax fresh
      ++ [add_patch_Rectangle (fsub x f0_1) (fsub mean std) f0_2
            (fsub (fadd mean std) (fsub mean std)) false bc lw]
      ++ (if dw
          then
            [plot (at_int p) (at_int p) min_val (fsub mean std) bc lw;
             plot (at_int p) (at_int p) (fadd mean std) max_val bc lw;
             plot (at_float (fsub x f0_1)) (at_float (fadd x f0_1))
               min_val min_val bc lw;
             plot (at_float (fsub x f0_1)) (at_float (fadd x f0_1))
               max_val max_val bc lw]
          else [])
      ++ when da [average_call p mean ac lw]
      ++ when pa [text_call p mean ac]
      ++ ticks /\
    Forall (fun c => is_tick_call c = true) ticks.
Proof.
  apply (@box_and_whiskers reference Matplotlib.surface samples
           (with_defaults (PInt 5) (PStr "a")) fresh at_5).
  - reflexivity.
  - vm_compute. reflexivity.
Defined.

(** C9: on an empty 1-D array with the scalar position 5, the call with
    the label omitted raises the TypeError of parameter 'label', an
    error of the documented taxonomy; and with the label "a" it raises
    the ValueError of [numpy.nanmin] on a zero-size array.  Neither is
    the IndexError of [position[0]]. *)
Lemma empty_series_not_IndexError :
  run_add_boxplot (array1 []) (with_defaults (PInt 5) PNone) fresh
    = (Raise (ParamType "label" str 0), fresh) /\
  taxonomy (ParamType "label" str 0) = Some InvalidArgument /\
  run_add_boxplot (array1 []) (with_defaults (PInt 5) (PStr "a")) fresh
    = (Raise (Foreign ValueError
                "zero-size array to reduction operation fmin which has no identity"),
       fresh).
Proof. repeat split. Qed.

(** C9 (amended) at work: a 0-dimensional array, and an empty 1-D
    array with a label. *)
Lemma unguarded_indexing_witness :
  run_add_boxplot (PArray {| shape := []; flat := [1%float] |})
    (with_defaults (PInt 5) PNone) fresh = (Raise OutOfRange, fresh) /\
  let d := {| shape := [0%nat]; flat := [] |} in
  let a := with_defaults (PInt 5) (PStr "a") in
  validate (PArray d) a = Return (d, mk_series 0 [] [] [] [] [] [] [] []) /\
  run_add_boxplot (PArray d) a fresh =
    match @stats reference (flat d) with
    | Return _ => (Raise OutOfRange, fresh)
    | Raise e => (Raise e, fresh)
    end /\
  forall e self', run_add_boxplot (PArray d) a fresh = (Raise e, self') ->
                  taxonomy e = None.
Proof.
  split.
  - apply (proj1 (@unguarded_indexing reference Matplotlib.surface)). reflexivity.
  - cbv zeta.
    apply (proj1 (proj2 (@unguarded_indexing reference Matplotlib.surface))).
    + reflexivity.
    + apply with_defaults_scalar.
Defined.

(** C10.  No rows and no label.  A call on an array of shape (0, 3)
    with the scalar position 1 and the label left out should return,
    the label being the position; but the label copied from the
    position is checked against [str] (line 151), so the call raises the
    TypeError of parameter 'label'.  Nothing is drawn and the registry
    is as before; with a string for the label the same call returns. *)
Theorem no_rows_omitted_label_refused :
  run_add_boxplot (array2 3 []) (with_defaults (PInt 1) PNone) fresh
    = (Raise (ParamType "label" str 0), fresh) /\
  exn_class (ParamType "label" str 0) = TypeError /\
  run_add_boxplot (array2 3 []) (with_defaults (PInt 1) (PStr "a")) fresh
    = (Return tt, fresh).
Proof. repeat split. Qed.

(** * Further properties

    What the code does beyond the claims above: the outcomes of
    [convert2sequence], the order of the checks, the loop over the rows,
    what a raising call leaves behind, and what the order of the calls
    changes. *)

(** ** convert2sequence *)

(** X1.  What [convert2sequence] returns is a fixed point.  When it
    returns, the result has exactly [N] items, every one an instance of
    the element type, and that result passed again, as a list or as a
    tuple and under any parameter name, is returned as it is. *)
Theorem convert2sequence_fixed_point v N name ty l :
  convert2sequence v N name ty = Return l ->
  List.length l = N /\
  Forall (fun x => isinstance x ty = true) l /\
  (forall name', convert2sequence (PList l) N name' ty = Return l) /\
  (forall name', convert2sequence (PTuple l) N name' ty = Return l).
Proof.
  intros H. apply convert2sequence_Return in H. destruct H as [Hlen Hall].
  assert (Hb : forallb (fun x => isinstance x ty) l = true).
  { apply forallb_forall. rewrite Forall_forall in Hall. exact Hall. }
  repeat split; try assumption; intros name'.
  - apply convert2sequence_items; auto using isinstance_PList.
  - apply convert2sequence_items; auto using isinstance_PTuple.
Qed.

Lemma forallb_false_Exists {A} (f : A -> bool) l :
  forallb f l = false -> Exists (fun x => f x = false) l.
Proof.
  induction l as [| x rest IH]; simpl; [discriminate |].
  destruct (f x) eqn:Hx; simpl; intros H.
  - right. now apply IH.
  - now left.
Qed.

(** X2.  The two errors of [convert2sequence].  When it raises, the
    value is not an instance of the element type, and: either it is a
    Sequence whose length is not [N], and the error is the ValueError of
    the length, whatever its items are; or the error is the TypeError,
    and the value is no Sequence at all or a Sequence of [N] items one
    of which is not of the element type.  So a length mismatch is
    reported before a wrong element. *)
Theorem convert2sequence_errors v N name ty e :
  convert2sequence v N name ty = Raise e ->
  isinstance v ty = false /\
  ((exists items,
       seq_items v = Some items /\ List.length items <> N /\
       e = ParamLength name ty N (List.length items)) \/
   (e = ParamType name ty N /\
    (seq_items v = None \/
     exists items,
       seq_items v = Some items /\ List.length items = N /\
       Exists (fun x => isinstance x ty = false) items))).
Proof.
  unfold convert2sequence.
  destruct (isinstance v ty); [discriminate |]. intros H.
  split; [reflexivity |].
  destruct (seq_items v) as [items |].
  - destruct (List.length items =? N)%nat eqn:Hlen; simpl in H.
    + apply Nat.eqb_eq in Hlen.
      destruct (forallb (fun x => isinstance x ty) items) eqn:Hall;
        [discriminate |].
      injection H as <-. right. split; [reflexivity |]. right.
      exists items. repeat split; try assumption.
      now apply forallb_false_Exists.
    + apply Nat.eqb_neq in Hlen. injection H as <-. left.
      exists items. now repeat split.
  - injection H as <-. right. split; [reflexivity |]. now left.
Qed.

Lemma chars_length s : List.length (chars s) = String.length s.
Proof.
  unfold chars. rewrite length_map.
  induction s as [| c s IH]; simpl; [reflexivity | now rewrite IH].
Qed.

Lemma chars_not_int_bool s ty :
  ty <> str -> s <> EmptyString ->
  forallb (fun x => isinstance x ty) (chars s) = false.
Proof.
  intros Hty Hs. destruct s as [| c s]; [contradiction |].
  destruct ty; try contradiction; reflexivity.
Qed.

(** X3.  Strings as parameters.  A string is a Sequence, but for a
    string parameter (label, box_color, average_color) it is taken
    whole and replicated, never split into its characters, even when
    its length is [N].  For an int or bool parameter a string is read
    character by character: a non-empty one is always refused (for its
    length if that is not [N], for its items otherwise), and the empty
    one is accepted exactly when [N = 0]. *)
Theorem string_parameter s N name :
  convert2sequence (PStr s) N name str = Return (repeat (PStr s) N) /\
  (forall ty, ty <> str -> s <> EmptyString ->
     convert2sequence (PStr s) N name ty =
     Raise (if (String.length s =? N)%nat then ParamType name ty N
            else ParamLength name ty N (String.length s))) /\
  (forall ty, ty <> str ->
     convert2sequence (PStr EmptyString) N name ty =
     match N with
     | O => Return []
     | S _ => Raise (ParamLength name ty N 0)
     end).
Proof.
  split; [reflexivity |]. split.
  - intros ty Hty Hs. unfold convert2sequence.
    assert (Hi : isinstance (PStr s) ty = false)
      by (destruct ty; try contradiction; reflexivity).
    rewrite Hi. cbn [seq_items]. rewrite chars_length.
    destruct (String.length s =? N)%nat; simpl; [| reflexivity].
    now rewrite chars_not_int_bool.
  - intros ty Hty. unfold convert2sequence.
    assert (Hi : isinstance (PStr EmptyString) ty = false)
      by (destruct ty; try contradiction; reflexivity).
    rewrite Hi. destruct N; reflexivity.
Qed.

(** ** The order of the checks *)

Section Further.

Context {numpy : Reductions} {matplotlib : Surface}.

(** The validation phase, parameter by parameter. *)
Lemma validate_normalise d N a :
  (ndim d < 3)%nat ->
  shape0 d = Return N ->
  validate (PArray d) a =
  obind (normalise Pposition a N) (fun position =>
  obind (normalise Plabel a N) (fun label =>
  obind (normalise Pbox_color a N) (fun box_color =>
  obind (normalise Paverage_color a N) (fun average_color =>
  obind (normalise Plinewidth a N) (fun linewidth =>
  obind (normalise Pdraw_whiskers a N) (fun draw_whiskers =>
  obind (normalise Pdraw_average a N) (fun draw_average =>
  obind (normalise Pprint_average a N) (fun print_average =>
  Return (d, mk_series N position label box_color average_color
               linewidth draw_whiskers draw_average print_average))))))))).
Proof.
  intros Hdim HN. unfold validate. apply Nat.leb_gt in Hdim.
  now rewrite Hdim, HN.
Qed.

(** X4.  The checks on [data] come first.  Whatever the other
    arguments are, valid or not, a [data] that is no ndarray raises the
    TypeError of line 144 and an array of three or more dimensions the
    ValueError of line 147, and the renderer is left as it was. *)
Theorem data_checked_first :
  (forall data a self,
      (forall d, data <> PArray d) ->
      add_boxplot data a self = (Raise DataNotArray, self)) /\
  (forall d a self,
      (3 <= ndim d)%nat ->
      add_boxplot (PArray d) a self = (Raise (DataDimension (ndim d)), self)) /\
  exn_class DataNotArray = TypeError /\
  (forall n, exn_class (DataDimension n) = ValueError).
Proof.
  repeat split.
  - intros data a self Hd. rewrite add_boxplot_phases. unfold validate.
    destruct data; try reflexivity. now elim (Hd a0).
  - intros d a self Hdim. rewrite add_boxplot_phases. unfold validate.
    apply Nat.leb_le in Hdim. now rewrite Hdim.
Qed.

(** X5.  The first offending parameter is the one reported.  On an
    array of one or two dimensions, when every parameter before [k] in
    the order position, label, box_color, average_color, linewidth,
    draw_whiskers, draw_average, print_average normalises and [k] does
    not, the call raises the exception of [k] - which names [k] -
    whatever the parameters after [k] are, and the renderer is left as
    it was. *)
Theorem first_offender_reported d N a k e self :
  (ndim d < 3)%nat ->
  shape0 d = Return N ->
  (forall j, In j (params_before k) -> exists l, normalise j a N = Return l) ->
  normalise k a N = Raise e ->
  add_boxplot (PArray d) a self = (Raise e, self) /\
  (e = ParamType (param_name k) (param_type k) N \/
   exists len, e = ParamLength (param_name k) (param_type k) N len).
Proof.
  intros Hdim HN Hbefore Hk. split.
  - rewrite add_boxplot_phases, (validate_normalise d N a Hdim HN).
    destruct k; cbn [params_before] in Hbefore;
      repeat match goal with
             | |- context [obind (normalise ?j a N) _] =>
                 first
                   [ rewrite Hk; reflexivity
                   | let l := fresh "l" in
                     let H := fresh "H" in
                     destruct (Hbefore j) as [l H];
                     [simpl; tauto | rewrite H; cbn [obind]] ]
             end.
  - unfold normalise in Hk. apply convert2sequence_Raise in Hk.
    destruct Hk as [-> | (len & _ & ->)]; [now left | right; eauto].
Qed.

(** ** Lists and tuples *)

Lemma convert2sequence_list_tuple items N name ty :
  convert2sequence (PList items) N name ty =
  convert2sequence (PTuple items) N name ty.
Proof.
  unfold convert2sequence.
  now rewrite isinstance_PList, isinstance_PTuple.
Qed.

(** X6.  A list and a tuple are the same argument.  For each of the
    eight parameters, passing a list or the tuple of the same items
    gives the same call: the same outcome and the same renderer, on any
    [data], the label given or omitted. *)
Theorem list_or_tuple data a k items self :
  add_boxplot data (set_param k (PList items) a) self =
  add_boxplot data (set_param k (PTuple items) a) self.
Proof.
  rewrite !add_boxplot_phases.
  assert (Hv : validate data (set_param k (PList items) a) =
               validate data (set_param k (PTuple items) a)).
  { unfold validate. destruct data; try (destruct k; reflexivity).
    destruct (3 <=? ndim a0)%nat; [reflexivity |].
    destruct (shape0 a0) as [N | e]; [| reflexivity]. cbn [obind].
    destruct k;
      cbn [set_param get_param position label box_color average_color
           linewidth draw_whiskers draw_average print_average];
      rewrite ?(convert2sequence_list_tuple items); try reflexivity.
    destruct (label a); cbn [label_or_position deepcopy];
      rewrite ?(convert2sequence_list_tuple items); reflexivity. }
  now rewrite Hv.
Qed.

(** ** The loop over the rows *)

Lemma getitem_nth l index :
  (index < List.length l)%nat -> getitem l index = Return (nth index l PNone).
Proof.
  intros Hlt. unfold getitem.
  now rewrite (nth_error_nth' l PNone Hlt).
Qed.

(** Inside the range, a turn of the loop is the call on the row with
    the row's own arguments. *)
Lemma row_call_row_args recurse data d s index self :
  validated data d s ->
  (index < ser_N s)%nat ->
  row_call recurse d s index self =
  recurse (PArray (subarray d index)) (row_args s index) self.
Proof.
  intros [_ _ _ [L1 _] [L2 _] [L3 _] [L4 _] [L5 _] [L6 _] [L7 _] [L8 _]] Hlt.
  unfold row_call, item, bind, lift.
  rewrite !getitem_nth by congruence. reflexivity.
Qed.

Lemma row_args_scalar_args data d s index :
  validated data d s ->
  (index < ser_N s)%nat ->
  scalar_args (row_args s index).
Proof.
  intros Hv Hlt.
  pose proof Hv as [_ _ _ [L1 _] [L2 _] [L3 _] [L4 _] [L5 _] [L6 _] [L7 _] [L8 _]].
  eapply row_args_scalar; eauto; apply nth_In; congruence.
Qed.

(** A 2-D call is the loop of the calls from outside on its rows. *)
Lemma add_boxplot_rows d a s self :
  validate (PArray d) a = Return (d, s) ->
  ndim d = 2%nat ->
  add_boxplot (PArray d) a self =
  for_range (ser_N s)
    (fun index => add_boxplot (PArray (subarray d index)) (row_args s index))
    self.
Proof.
  intros Hv Hdim. rewrite add_boxplot_phases, Hv.
  apply validate_Return in Hv.
  unfold dispatch. rewrite Hdim. cbn [Nat.eqb].
  apply for_each_ext. intros index self1 Hin. apply in_seq in Hin.
  rewrite (row_call_row_args _ _ _ _ _ _ Hv) by lia.
  apply (add_boxplot_body_leaf (add_boxplot_rec 0) (add_boxplot_rec 1)).
  intros d' [= <-]. rewrite ndim_subarray, Hdim. discriminate.
Qed.

(** X7.  A 2-D call is its rows, in order.  When a call on a 2-D array
    passes validation, it does exactly what calling [add_boxplot] from
    outside on row 0, then on row 1, ... would do, each with item
    [index] of every normalised parameter as a scalar argument and
    stopping at the first call that raises.  There are as many calls as
    rows, each on a 1-D array with arguments that validate again. *)
Theorem rows_in_order d a s self :
  validate (PArray d) a = Return (d, s) ->
  ndim d = 2%nat ->
  add_boxplot (PArray d) a self =
    for_range (ser_N s)
      (fun index =>
         add_boxplot (PArray (subarray d index)) (row_args s index))
      self /\
  shape0 d = Return (ser_N s) /\
  forall index, (index < ser_N s)%nat ->
    ndim (subarray d index) = 1%nat /\ scalar_args (row_args s index).
Proof.
  intros Hv Hdim. split; [now apply add_boxplot_rows |].
  apply validate_Return in Hv. split; [apply Hv |].
  intros index Hlt. split.
  - now rewrite ndim_subarray, Hdim.
  - eapply row_args_scalar_args; eauto.
Qed.

(** ** What a raising call leaves behind *)

Lemma series_calls_no_tick p mean std min_val max_val bc ac lw dw da pa :
  Forall (fun c => is_tick_call c = false)
    (series_calls p mean std min_val max_val bc ac lw dw da pa).
Proof.
  unfold series_calls, when, whisker_calls.
  destruct dw, da, pa; repeat constructor.
Qed.

(** The ways a call on a 1-D array raises: before anything is drawn -
    a refused argument, a reduction that raises, [position[0]] on an
    empty array, a position too large for a float - or when matplotlib
    refuses a primitive of the series, the ones before it staying on
    the surface.  The tick update is never reached. *)
Lemma leaf_Raise d a self e self' :
  ndim d = 1%nat ->
  add_boxplot (PArray d) a self = (Raise e, self') ->
  exists calls,
    self' = drawn self calls /\
    Forall (fun c => is_tick_call c = false) calls /\
    ((calls = [] /\
      (validate (PArray d) a = Raise e \/
       stats (flat d) = Raise e \/
       (e = OutOfRange /\ shape d = [0%nat]) \/
       (e = IntTooLarge /\
        exists s p,
          validate (PArray d) a = Return (d, s) /\
          first_as (ser_position s) int_value = Return p /\
          of_int p = Raise e))) \/
     (exists s mean std min_val max_val p l bc ac lw dw da pa c rest cls origin,
         validate (PArray d) a = Return (d, s) /\
         stats (flat d) = Return (mean, std, min_val, max_val) /\
         heads s p l bc ac lw dw da pa /\
         series_calls p mean std min_val max_val bc ac lw dw da pa
           = calls ++ c :: rest /\
         Forall (fun c' => refuses c' = None) calls /\
         refuses c = Some (cls, origin) /\
         e = Foreign cls origin)).
Proof.
  intros Hdim H. rewrite add_boxplot_leaf in H
    by (intros d' [= <-]; rewrite Hdim; discriminate).
  destruct (validate (PArray d) a) as [[d' s] | e0] eqn:Hv.
  2:{ injection H as <- <-. exists []. rewrite drawn_nil.
      split; [reflexivity |]. split; [constructor |].
      left. split; [reflexivity |]. now left. }
  pose proof (validate_Return _ _ _ _ Hv) as Hval.
  assert (d' = d) as -> by (destruct Hval as [Hd]; congruence).
  destruct (stats (flat d)) as [[[[mean std] min_val] max_val] | e0] eqn:Hst.
  2:{ rewrite (draw_series_stats_Raise _ _ _ _ _ _ _ _ _ e0) in H by assumption.
      injection H as <- <-. exists []. rewrite drawn_nil.
      split; [reflexivity |]. split; [constructor |].
      left. split; [reflexivity |]. right. now left. }
  destruct (Nat.eq_dec (ser_N s) 0) as [HN | HN].
  - pose proof Hval as [_ _ Hs0 [Hlen _] _ _ _ _ _ _ _].
    rewrite HN in Hlen. apply length_zero_iff_nil in Hlen.
    rewrite Hlen in H. erewrite draw_series_empty in H by eassumption.
    injection H as <- <-. exists []. rewrite drawn_nil.
    split; [reflexivity |]. split; [constructor |].
    left. split; [reflexivity |]. right. right. left.
    split; [reflexivity |].
    destruct (shape0_ndim1 d Hdim) as [N HsN].
    unfold shape0 in Hs0. rewrite HsN in Hs0. congruence.
  - destruct (validated_heads _ _ _ Hval HN)
      as (p & l & bc & ac & lw & dw & da & pa & Hheads).
    rewrite (draw_series_heads d s mean std min_val max_val
               p l bc ac lw dw da pa) in H by assumption.
    destruct (of_int p) as [x | e0] eqn:Hx.
    + destruct (accepted_prefix _) as [prefix [e0 |]] eqn:Hacc;
        [| discriminate].
      injection H as <- <-. exists prefix. split; [reflexivity |].
      destruct (accepted_prefix_refusal _ _ _ Hacc)
        as (c & rest & cls & origin & Hcalls & Hall & Hc & He).
      split.
      * pose proof (series_calls_no_tick p mean std min_val max_val
                      bc ac lw dw da pa) as Hno.
        rewrite Hcalls in Hno. now apply Forall_app in Hno.
      * right.
        exists s, mean, std, min_val, max_val, p, l, bc, ac, lw, dw, da, pa,
          c, rest, cls, origin.
        auto 10.
    + injection H as <- <-. exists []. rewrite drawn_nil.
      split; [reflexivity |]. split; [constructor |].
      left. split; [reflexivity |]. do 3 right.
      split; [now apply of_int_Raise in Hx |].
      exists s, p. repeat split; auto. apply Hheads.
Qed.

(** What a raising call on a 1-D array has added to the surface: no
    tick setter, and nothing at all unless matplotlib raised. *)
Lemma leaf_Raise_drawn d a self e self' :
  ndim d = 1%nat ->
  add_boxplot (PArray d) a self = (Raise e, self') ->
  exists calls,
    self' = drawn self calls /\
    Forall (fun c => is_tick_call c = false) calls /\
    (calls = [] \/ exists cls origin, e = Foreign cls origin).
Proof.
  intros Hdim H.
  destruct (leaf_Raise _ _ _ _ _ Hdim H) as (calls & Hself & Hall & Hwhy).
  exists calls. split; [exact Hself |]. split; [exact Hall |].
  destruct Hwhy as [[-> _] | Hrefused]; [now left |].
  destruct Hrefused
    as (s & mean & std & mn & mx & p & l & bc & ac & lw & dw & da & pa
        & c & rest & cls & origin & _ & _ & _ & _ & _ & _ & ->).
  right. eauto.
Qed.

(** X8.  What a raising call on one series leaves behind.  When a call
    on a 1-D array raises, both lists of the tick registry are as
    before and no tick setter was issued.  The surface is as before
    too when the call failed on a refused argument, on a numeric
    reduction, on the subscript [position[0]] of an empty array or on a
    position too large for a float.  The one other failure is
    matplotlib refusing a primitive of the series: the exception is
    matplotlib's, and the primitives issued before the refused one stay
    on the surface - nothing is rolled back. *)
Theorem raising_series d a self e self' :
  ndim d = 1%nat ->
  add_boxplot (PArray d) a self = (Raise e, self') ->
  exists calls,
    self' = drawn self calls /\
    Forall (fun c => is_tick_call c = false) calls /\
    ((calls = [] /\
      (validate (PArray d) a = Raise e \/
       stats (flat d) = Raise e \/
       (e = OutOfRange /\ shape d = [0%nat]) \/
       (e = IntTooLarge /\
        exists s p,
          validate (PArray d) a = Return (d, s) /\
          first_as (ser_position s) int_value = Return p /\
          of_int p = Raise e))) \/
     (exists s mean std min_val max_val p l bc ac lw dw da pa c rest cls origin,
         validate (PArray d) a = Return (d, s) /\
         stats (flat d) = Return (mean, std, min_val, max_val) /\
         heads s p l bc ac lw dw da pa /\
         series_calls p mean std min_val max_val bc ac lw dw da pa
           = calls ++ c :: rest /\
         Forall (fun c' => refuses c' = None) calls /\
         refuses c = Some (cls, origin) /\
         e = Foreign cls origin)).
Proof. apply leaf_Raise. Qed.

(** Where a loop stops: the turns before the failing one have all
    returned. *)
Lemma for_each_seq_Raise (body : nat -> M unit) e self' n :
  forall start self,
    for_each (seq start n) body self = (Raise e, self') ->
    exists k self1,
      (k < n)%nat /\
      for_each (seq start k) body self = (Return tt, self1) /\
      body (start + k)%nat self1 = (Raise e, self').
Proof.
  induction n as [| n IH]; intros start self H; simpl in H.
  - discriminate.
  - unfold bind in H.
    destruct (body start self) as [[[] | e0] self0] eqn:Hb.
    + destruct (IH _ _ H) as (k & self1 & Hk & Hloop & Hfail).
      exists (S k), self1. split; [lia |]. split.
      * simpl. unfold bind. now rewrite Hb.
      * now rewrite Nat.add_succ_r.
    + injection H as <- <-. exists 0%nat, self. split; [lia |].
      split; [reflexivity |]. now rewrite Nat.add_0_r.
Qed.

(** X9.  No rollback over the rows.  When a call on a 2-D array passes
    validation and then raises, some row [k] raised: the rows before
    [k] have been drawn in full, with their ticks, and the rows after
    [k] were never started.  Row [k] itself has registered no tick; it
    has drawn nothing, unless it stopped on a primitive matplotlib
    refused, and then its primitives before that one are on the
    surface. *)
Theorem rows_before_failure d a s self e self' :
  validate (PArray d) a = Return (d, s) ->
  ndim d = 2%nat ->
  add_boxplot (PArray d) a self = (Raise e, self') ->
  exists k self1 calls,
    (k < ser_N s)%nat /\
    for_range k
      (fun index =>
         add_boxplot (PArray (subarray d index)) (row_args s index))
      self = (Return tt, self1) /\
    add_boxplot (PArray (subarray d k)) (row_args s k) self1
      = (Raise e, self') /\
    self' = drawn self1 calls /\
    Forall (fun c => is_tick_call c = false) calls /\
    (calls = [] \/ exists cls origin, e = Foreign cls origin).
Proof.
  intros Hv Hdim H. rewrite (add_boxplot_rows d a s self Hv Hdim) in H.
  destruct (for_each_seq_Raise _ _ _ _ _ _ H)
    as (k & self1 & Hk & Hloop & Hfail).
  simpl in Hfail.
  destruct (leaf_Raise_drawn _ _ _ _ _ (eq_trans (ndim_subarray d k)
                                           (f_equal pred Hdim)) Hfail)
    as (calls & Hself & Hall & Hwhy).
  exists k, self1, calls. auto 10.
Qed.

(** ** One series, from its arguments *)

Lemma scalar_args_intro a p l bc ac lw dw da pa :
  int_value (position a) = Return p ->
  label a = PStr l -> box_color a = PStr bc -> average_color a = PStr ac ->
  int_value (linewidth a) = Return lw ->
  draw_whiskers a = PBool dw -> draw_average a = PBool da ->
  print_average a = PBool pa ->
  scalar_args a.
Proof.
  intros Hp Hl Hbc Hac Hlw Hdw Hda Hpa k.
  apply int_value_isinstance in Hp, Hlw.
  destruct k; cbn [get_param param_type];
    rewrite ?Hl, ?Hbc, ?Hac, ?Hdw, ?Hda, ?Hpa; auto.
Qed.

(** A call on a non-empty 1-D array with scalar arguments, outcome by
    outcome. *)
Lemma leaf_scalars d n a p l bc ac lw dw da pa self :
  shape d = [S n] ->
  int_value (position a) = Return p ->
  label a = PStr l -> box_color a = PStr bc -> average_color a = PStr ac ->
  int_value (linewidth a) = Return lw ->
  draw_whiskers a = PBool dw -> draw_average a = PBool da ->
  print_average a = PBool pa ->
  add_boxplot (PArray d) a self =
  match stats (flat d) with
  | Raise e => (Raise e, self)
  | Return (mean, std, min_val, max_val) =>
      match of_int p with
      | Raise e => (Raise e, self)
      | Return _ =>
          match accepted_prefix
                  (series_calls p mean std min_val max_val bc ac lw dw da pa)
          with
          | (calls, None) => (Return tt, registered (drawn self calls) p l)
          | (calls, Some e) => (Raise e, drawn self calls)
          end
      end
  end.
Proof.
  intros Hs Hp Hl Hbc Hac Hlw Hdw Hda Hpa.
  pose proof (scalar_args_intro a p l bc ac lw dw da pa
                Hp Hl Hbc Hac Hlw Hdw Hda Hpa) as Ha.
  change (add_boxplot (PArray d) a self)
    with (add_boxplot_body (add_boxplot_rec 1) (PArray d) a self).
  rewrite (leaf_call _ d a (S n) self Hs Ha).
  destruct (stats (flat d)) as [[[[mean std] min_val] max_val] | e] eqn:Hst.
  - apply (draw_series_heads d
             (mk_series (S n) (repeat (position a) (S n))
                (repeat (label a) (S n)) (repeat (box_color a) (S n))
                (repeat (average_color a) (S n))
                (repeat (linewidth a) (S n))
                (repeat (draw_whiskers a) (S n))
                (repeat (draw_average a) (S n))
                (repeat (print_average a) (S n)))); [assumption |].
    constructor; cbn [ser_position ser_label ser_box_color ser_average_color
                      ser_linewidth ser_draw_whiskers ser_draw_average
                      ser_print_average repeat];
      rewrite first_as_cons;
      rewrite ?Hl, ?Hbc, ?Hac, ?Hdw, ?Hda, ?Hpa; auto.
  - now apply draw_series_stats_Raise.
Qed.

(** X10.  One series, from its arguments.  On a non-empty 1-D array,
    with every parameter a scalar of its element type, the call raises
    the exception of the first numeric reduction that fails, or
    OverflowError when the position is too large for a float, drawing
    nothing.  Otherwise it issues, in this order: the box; the four
    whisker segments if [draw_whiskers]; if [draw_average], one segment
    at [y = mean] from [position - 0.1] to [position + 0.1] in
    [average_color] and [linewidth]; if [print_average], the mean as
    text at [(position + 0.2, mean)] in [average_color].  It stops at
    the first of them matplotlib refuses, with matplotlib's exception
    and the earlier ones on the surface; when none is refused it
    returns, after the two tick setters if the position was not
    registered. *)
Theorem single_series_drawn d n a p l bc ac lw dw da pa self :
  shape d = [S n] ->
  int_value (position a) = Return p ->
  label a = PStr l -> box_color a = PStr bc -> average_color a = PStr ac ->
  int_value (linewidth a) = Return lw ->
  draw_whiskers a = PBool dw -> draw_average a = PBool da ->
  print_average a = PBool pa ->
  add_boxplot (PArray d) a self =
    match stats (flat d) with
    | Raise e => (Raise e, self)
    | Return (mean, std, min_val, max_val) =>
        match of_int p with
        | Raise e => (Raise e, self)
        | Return x =>
            match accepted_prefix
                    (box_call p mean std bc lw
                     :: when dw
                          (whisker_calls p mean std min_val max_val bc lw)
                     ++ when da
                          [plot (at_float (fsub x f0_1))
                             (at_float (fadd x f0_1)) mean mean ac lw]
                     ++ when pa [text (fadd x f0_2) mean mean ac])
            with
            | (calls, None) => (Return tt, registered (drawn self calls) p l)
            | (calls, Some e) => (Raise e, drawn self calls)
            end
        end
    end.
Proof.
  intros Hs Hp Hl Hbc Hac Hlw Hdw Hda Hpa.
  rewrite (leaf_scalars d n a p l bc ac lw dw da pa self) by assumption.
  destruct (stats (flat d)) as [[[[mean std] min_val] max_val] | e];
    [| reflexivity].
  destruct (of_int p) as [x | e] eqn:Hx; [| reflexivity].
  apply of_int_Return in Hx. subst x. reflexivity.
Qed.

(** ** Ticks that are not pushed *)

Lemma last_ticks_unchanged calls more :
  Forall (fun c => is_tick_call c = false) more ->
  last_xticks (calls ++ more) = last_xticks calls /\
  last_xticklabels (calls ++ more) = last_xticklabels calls.
Proof.
  induction more as [| c more IH] using rev_ind; intros Hall.
  - now rewrite app_nil_r.
  - apply Forall_app in Hall. destruct Hall as [Hmore Hc].
    apply Forall_inv in Hc. destruct (IH Hmore) as [IH1 IH2].
    rewrite app_assoc, last_xticks_app, last_xticklabels_app.
    destruct c; try discriminate; now split.
Qed.

(** X11.  A known position pushes no ticks.  A call on one series at a
    position that is already registered, whether it returns or raises,
    issues no [set_xticks] and no [set_xticklabels]: the primitives it
    adds are the drawing ones only, the ticks the surface holds are the
    ones it held, and the label passed with the call is dropped. *)
Theorem known_position_pushes_nothing d a p self o self' :
  ndim d = 1%nat ->
  int_value (position a) = Return p ->
  In p (current_positions self) ->
  add_boxplot (PArray d) a self = (o, self') ->
  exists calls,
    ax self' = ax self ++ calls /\
    Forall (fun c => is_tick_call c = false) calls /\
    last_xticks (ax self') = last_xticks (ax self) /\
    last_xticklabels (ax self') = last_xticklabels (ax self) /\
    current_positions self' = current_positions self /\
    current_ticklabels self' = current_ticklabels self.
Proof.
  intros Hdim Hp Hin H.
  assert (Hcalls : exists calls,
             self' = drawn self calls /\
             Forall (fun c => is_tick_call c = false) calls).
  { destruct o as [[] | e].
    - destruct (leaf_Return _ _ _ _ Hdim H)
        as (s & mean & std & mn & mx & p' & l & bc & ac & lw & dw & da & pa
            & Hv & _ & Hheads & ->).
      assert (p' = p) as ->
        by (eapply head_position_scalar; eauto; apply Hheads).
      eexists. split; [| apply series_calls_no_tick].
      unfold registered. cbn [drawn current_positions].
      apply contains_In in Hin. rewrite Hin. reflexivity.
    - destruct (leaf_Raise_drawn _ _ _ _ _ Hdim H) as (calls & Hself & Hall & _).
      now exists calls. }
  destruct Hcalls as (calls & -> & Hall). exists calls.
  destruct (last_ticks_unchanged (ax self) calls Hall) as [H1 H2].
  cbn [drawn ax current_positions current_ticklabels]. auto 10.
Qed.

(** ** Rows without columns *)

(** X12.  Rows without columns.  On a 2-D array with at least one row
    and no column, with every parameter a scalar of its element type,
    the call raises out of row 0 and draws nothing: the exception of
    the first numeric reduction that raises on the empty row, or
    IndexError from [position[0]] when all four return.  (With no row
    at all the call returns: shape (0, n) is accepted, shape (n, 0) is
    not.) *)
Theorem rows_without_columns d nrows a self :
  shape d = [S nrows; 0%nat] ->
  scalar_args a ->
  add_boxplot (PArray d) a self =
  match stats [] with
  | Return _ => (Raise OutOfRange, self)
  | Raise e => (Raise e, self)
  end.
Proof.
  intros Hs Ha.
  assert (Hv := validate_scalars d a (S nrows)).
  rewrite (add_boxplot_rows d a _ self (Hv ltac:(unfold ndim; rewrite Hs; simpl; lia)
                                            ltac:(unfold shape0; now rewrite Hs) Ha))
    by (unfold ndim; now rewrite Hs).
  cbn [ser_N for_range seq for_each]. unfold bind.
  assert (Hrow : add_boxplot (PArray (subarray d 0))
                   (row_args
                      (mk_series (S nrows) (repeat (position a) (S nrows))
                         (repeat (label a) (S nrows))
                         (repeat (box_color a) (S nrows))
                         (repeat (average_color a) (S nrows))
                         (repeat (linewidth a) (S nrows))
                         (repeat (draw_whiskers a) (S nrows))
                         (repeat (draw_average a) (S nrows))
                         (repeat (print_average a) (S nrows))) 0) self =
                 match stats [] with
                 | Return _ => (Raise OutOfRange, self)
                 | Raise e => (Raise e, self)
                 end).
  { change (add_boxplot ?x ?y self)
      with (add_boxplot_body (add_boxplot_rec 1) x y self).
    rewrite (leaf_call _ _ _ 0%nat).
    - assert (Hflat : flat (subarray d 0) = [])
        by (unfold subarray; rewrite Hs; reflexivity).
      cbn [repeat]. destruct (stats []) as [v | e] eqn:Hst.
      + erewrite draw_series_empty; [reflexivity |]. rewrite Hflat. eassumption.
      + erewrite draw_series_stats_Raise; [reflexivity |]. now rewrite Hflat.
    - unfold subarray. rewrite Hs. reflexivity.
    - intros k. specialize (Ha k). destruct k; exact Ha. }
  rewrite Hrow. now destruct (stats []).
Qed.

(** ** Every plotted position has its tick *)

Lemma extends_refl self : extends self self.
Proof. exists [], []. now rewrite !app_nil_r. Qed.

Lemma extends_trans s1 s2 s3 : extends s1 s2 -> extends s2 s3 -> extends s1 s3.
Proof.
  intros (p1 & l1 & Hp1 & Hl1 & Hn1) (p2 & l2 & Hp2 & Hl2 & Hn2).
  exists (p1 ++ p2), (l1 ++ l2).
  rewrite Hp2, Hl2, Hp1, Hl1, <- !app_assoc, !length_app. auto.
Qed.

Lemma extends_In s1 s2 p :
  extends s1 s2 -> In p (current_positions s1) -> In p (current_positions s2).
Proof.
  intros (ps & ls & Hp & _ & _) Hin. rewrite Hp. apply in_or_app. now left.
Qed.

(** In a loop that returns, every turn has returned, and what it
    registered is still there at the end. *)
Lemma for_each_Return_each (body : nat -> M unit) indices :
  (forall i s o s', body i s = (o, s') -> extends s s') ->
  forall self self',
    for_each indices body self = (Return tt, self') ->
    extends self self' /\
    forall i, In i indices ->
      exists s1 s2, body i s1 = (Return tt, s2) /\ extends s2 self'.
Proof.
  intros Hbody. induction indices as [| i rest IH]; intros self self' H;
    simpl in H.
  - injection H as <-. split; [apply extends_refl | intros i []].
  - unfold bind in H.
    destruct (body i self) as [[[] | e] s0] eqn:Hb; [| discriminate].
    destruct (IH _ _ H) as [Hext Heach]. split.
    + eapply extends_trans; [eapply Hbody; eauto | exact Hext].
    + intros j [<- | Hj]; [now exists self, s0 | now apply Heach].
Qed.

Lemma leaf_position_registered d a p self self' :
  ndim d = 1%nat ->
  int_value (position a) = Return p ->
  add_boxplot (PArray d) a self = (Return tt, self') ->
  In p (current_positions self').
Proof.
  intros Hdim Hp H.
  destruct (leaf_Return _ _ _ _ Hdim H)
    as (s & mean & std & mn & mx & p' & l & bc & ac & lw & dw & da & pa
        & Hv & _ & Hheads & ->).
  assert (p' = p) as ->
    by (eapply head_position_scalar; eauto; apply Hheads).
  apply registered_In.
Qed.

(** X14.  Every plotted position has its tick.  When a call returns,
    the position of each series it has drawn is in the registry: the
    scalar position of a call on a 1-D array, and every item of the
    normalised [position] of a call on a 2-D array. *)
Theorem plotted_positions_registered :
  (forall d a p self self',
      ndim d = 1%nat ->
      int_value (position a) = Return p ->
      add_boxplot (PArray d) a self = (Return tt, self') ->
      In p (current_positions self')) /\
  (forall d a s self self' v p,
      validate (PArray d) a = Return (d, s) ->
      ndim d = 2%nat ->
      add_boxplot (PArray d) a self = (Return tt, self') ->
      In v (ser_position s) -> int_value v = Return p ->
      In p (current_positions self')).
Proof.
  split; [apply leaf_position_registered |].
  intros d a s self self' v p Hv Hdim H Hin Hp.
  rewrite (add_boxplot_rows d a s self Hv Hdim) in H.
  pose proof (validate_Return _ _ _ _ Hv) as Hval.
  destruct (In_nth _ _ PNone Hin) as (index & Hlt & Hnth).
  assert (Hlen : List.length (ser_position s) = ser_N s)
    by (destruct Hval as [_ _ _ [L _]]; exact L).
  destruct (for_each_Return_each
              (fun index =>
                 add_boxplot (PArray (subarray d index)) (row_args s index))
              (seq 0 (ser_N s))
              (fun i s0 o s0' => add_boxplot_extends _ _ s0 o s0')
              _ _ H) as [_ Heach].
  destruct (Heach index) as (s1 & s2 & Hcall & Hext).
  { apply in_seq. lia. }
  eapply extends_In; [exact Hext |].
  eapply leaf_position_registered; [| | exact Hcall].
  - now rewrite ndim_subarray, Hdim.
  - cbn [row_args position]. now rewrite Hnth.
Qed.

End Further.

(** ** The ticks do not depend on the order of the calls *)

Lemma combine_fst_snd {A B} (xs : list A) (ys : list B) :
  List.length xs = List.length ys ->
  map fst (combine xs ys) = xs /\ map snd (combine xs ys) = ys.
Proof.
  revert ys. induction xs as [| x xs IH]; intros [| y ys] Hlen;
    simpl in *; try discriminate; [now split |].
  destruct (IH ys) as [H1 H2]; [congruence |]. now rewrite H1, H2.
Qed.

Lemma combine_sorted (xs : list Z) (ys : list string) :
  StronglySorted Z.lt xs ->
  StronglySorted (fun a b : Z * string => fst a < fst b) (combine xs ys).
Proof.
  intros Hs. revert ys. induction Hs as [| x xs Hxs IH Hx]; intros [| y ys];
    simpl; try constructor.
  - apply IH.
  - apply Forall_forall. intros [x' y'] Hin. apply in_combine_l in Hin.
    rewrite Forall_forall in Hx. simpl. now apply Hx.
Qed.

(** Two lists sorted on distinct keys with the same elements are the
    same list. *)
Lemma sorted_pairs_unique (l1 l2 : list (Z * string)) :
  StronglySorted (fun a b => fst a < fst b) l1 ->
  StronglySorted (fun a b => fst a < fst b) l2 ->
  Permutation l1 l2 ->
  l1 = l2.
Proof.
  intros H1. revert l2. induction H1 as [| x t Ht IH Hx]; intros l2 H2 Hperm.
  - now apply Permutation_nil in Hperm.
  - destruct l2 as [| y t2];
      [apply Permutation_sym, Permutation_nil in Hperm; discriminate |].
    inversion H2 as [| ? ? Ht2 Hy]; subst.
    assert (x = y) as <-.
    { assert (Hxin : In x (y :: t2))
        by (eapply Permutation_in; [exact Hperm | now left]).
      assert (Hyin : In y (x :: t))
        by (eapply Permutation_in;
            [apply Permutation_sym; exact Hperm | now left]).
      destruct Hxin as [-> | Hxin]; [reflexivity |].
      destruct Hyin as [-> | Hyin]; [reflexivity |].
      rewrite Forall_forall in Hx, Hy.
      specialize (Hx _ Hyin). specialize (Hy _ Hxin). lia. }
    f_equal. apply IH; [assumption |].
    eapply Permutation_cons_inv; eauto.
Qed.

(** The ticks the surface holds are a function of the registered
    pairs, whatever the order they were registered in. *)
Lemma ticks_of_pairs s1 s2 :
  invariant s1 -> invariant s2 ->
  current_positions s1 <> [] ->
  Permutation
    (combine (current_positions s1) (current_ticklabels s1))
    (combine (current_positions s2) (current_ticklabels s2)) ->
  last_xticks (ax s1) = last_xticks (ax s2) /\
  last_xticklabels (ax s1) = last_xticklabels (ax s2).
Proof.
  intros [[Hlen1 Hnd1] Hsync1] [[Hlen2 Hnd2] Hsync2] Hne Hperm.
  assert (Hne2 : current_positions s2 <> []).
  { intros E. rewrite E in Hperm. simpl in Hperm.
    apply Permutation_sym, Permutation_nil in Hperm.
    destruct (current_positions s1) as [| p ps]; [contradiction |].
    destruct (current_ticklabels s1); simpl in *; discriminate. }
  destruct Hsync1 as [E | [Ht1 Hl1]]; [contradiction |].
  destruct Hsync2 as [E | [Ht2 Hl2]]; [contradiction |].
  destruct (sorted_registry _ _ Hlen1 Hnd1) as (Hs1 & Hn1 & Hp1).
  destruct (sorted_registry _ _ Hlen2 Hnd2) as (Hs2 & Hn2 & Hp2).
  cbv zeta in *.
  assert (Heq : combine (take 0 (current_positions s1)
                           (argsort (current_positions s1)))
                  (take ""%string (current_ticklabels s1)
                     (argsort (current_positions s1))) =
                combine (take 0 (current_positions s2)
                           (argsort (current_positions s2)))
                  (take ""%string (current_ticklabels s2)
                     (argsort (current_positions s2)))).
  { apply sorted_pairs_unique; try now apply combine_sorted.
    eapply perm_trans; [exact Hp1 |].
    eapply perm_trans; [exact Hperm | now apply Permutation_sym]. }
  destruct (combine_fst_snd _ _ Hn1) as [F1 S1].
  destruct (combine_fst_snd _ _ Hn2) as [F2 S2].
  pose proof (f_equal (map fst) Heq) as Hf. rewrite F1, F2 in Hf.
  pose proof (f_equal (map snd) Heq) as Hg. rewrite S1, S2 in Hg.
  now rewrite Ht1, Ht2, Hl1, Hl2, Hf, Hg.
Qed.

Lemma combine_app_eq {A B} (xs xs' : list A) (ys ys' : list B) :
  List.length xs = List.length ys ->
  combine (xs ++ xs') (ys ++ ys') = combine xs ys ++ combine xs' ys'.
Proof.
  revert ys. induction xs as [| x xs IH]; intros [| y ys] Hlen;
    simpl in *; try discriminate; [reflexivity |].
  f_equal. apply IH. congruence.
Qed.

Lemma contains_app_other p q l :
  p <> q -> contains p (l ++ [q]) = contains p l.
Proof.
  intros Hne. unfold contains. rewrite existsb_app. simpl.
  apply Z.eqb_neq in Hne. rewrite Hne. now rewrite !orb_false_r.
Qed.

Section Order.

Context {numpy : Reductions} {matplotlib : Surface}.

(** The registry after a returning call on one series. *)
Lemma leaf_registry d a p l self self' :
  ndim d = 1%nat ->
  int_value (position a) = Return p ->
  label a = PStr l ->
  add_boxplot (PArray d) a self = (Return tt, self') ->
  current_positions self' =
    (if contains p (current_positions self) then current_positions self
     else current_positions self ++ [p]) /\
  current_ticklabels self' =
    (if contains p (current_positions self) then current_ticklabels self
     else current_ticklabels self ++ [l]).
Proof.
  intros Hdim Hp Hl H.
  destruct (leaf_Return _ _ _ _ Hdim H)
    as (s & mean & std & mn & mx & p' & l' & bc & ac & lw & dw & da & pa
        & Hv & _ & Hheads & ->).
  assert (p' = p) as ->
    by (eapply head_position_scalar; eauto; apply Hheads).
  assert (l' = l) as ->
    by (eapply head_label_scalar; eauto; apply Hheads).
  unfold registered. cbn [drawn current_positions current_ticklabels].
  destruct (contains p (current_positions self)); now split.
Qed.

(** X15.  The ticks do not depend on the order of the calls.  Two
    series at different positions, added to the same reachable renderer
    in one order or in the other (all four calls returning), leave the
    same tick locations and the same tick labels on the surface, and the
    same registered pairs; only the order of the two lists of the
    registry differs. *)
Theorem ticks_independent_of_order
    self dA aA pA lA dB aB pB lB sA sAB sB sBA :
  reachable self ->
  ndim dA = 1%nat -> ndim dB = 1%nat ->
  int_value (position aA) = Return pA -> label aA = PStr lA ->
  int_value (position aB) = Return pB -> label aB = PStr lB ->
  pA <> pB ->
  add_boxplot (PArray dA) aA self = (Return tt, sA) ->
  add_boxplot (PArray dB) aB sA = (Return tt, sAB) ->
  add_boxplot (PArray dB) aB self = (Return tt, sB) ->
  add_boxplot (PArray dA) aA sB = (Return tt, sBA) ->
  last_xticks (ax sAB) = last_xticks (ax sBA) /\
  last_xticklabels (ax sAB) = last_xticklabels (ax sBA) /\
  Permutation
    (combine (current_positions sAB) (current_ticklabels sAB))
    (combine (current_positions sBA) (current_ticklabels sBA)).
Proof.
  intros Hreach HdA HdB HpA HlA HpB HlB Hne HA HAB HB HBA.
  pose proof (reachable_invariant _ Hreach) as Hinv.
  pose proof (add_boxplot_invariant _ _ _ _ _ Hinv HA) as HinvA.
  pose proof (add_boxplot_invariant _ _ _ _ _ HinvA HAB) as HinvAB.
  pose proof (add_boxplot_invariant _ _ _ _ _ Hinv HB) as HinvB.
  pose proof (add_boxplot_invariant _ _ _ _ _ HinvB HBA) as HinvBA.
  assert (Hperm : Permutation
            (combine (current_positions sAB) (current_ticklabels sAB))
            (combine (current_positions sBA) (current_ticklabels sBA))).
  { destruct (leaf_registry _ _ _ _ _ _ HdA HpA HlA HA) as [PA LA].
    destruct (leaf_registry _ _ _ _ _ _ HdB HpB HlB HAB) as [PAB LAB].
    destruct (leaf_registry _ _ _ _ _ _ HdB HpB HlB HB) as [PB LB].
    destruct (leaf_registry _ _ _ _ _ _ HdA HpA HlA HBA) as [PBA LBA].
    destruct Hinv as [[Hlen _] _].
    assert (Hne' : pB <> pA) by congruence.
    rewrite PAB, LAB, PBA, LBA, PA, LA, PB, LB.
    destruct (contains pA (current_positions self)) eqn:EA;
      destruct (contains pB (current_positions self)) eqn:EB;
      cbv iota;
      rewrite ?(contains_app_other pB pA), ?(contains_app_other pA pB)
        by assumption;
      rewrite ?EA, ?EB; cbv iota;
      try apply Permutation_refl.
    rewrite <- !app_assoc.
    rewrite (combine_app_eq _ ([pA] ++ [pB]) _ ([lA] ++ [lB]) Hlen),
      (combine_app_eq _ ([pB] ++ [pA]) _ ([lB] ++ [lA]) Hlen).
    apply Permutation_app_head. simpl. apply perm_swap. }
  split; [| split; [| exact Hperm]];
    apply (ticks_of_pairs sAB sBA); auto;
    intros E;
    pose proof (leaf_position_registered _ _ _ _ _ HdB HpB HAB) as Hin;
    rewrite E in Hin; exact Hin.
Qed.

End Order.

(** * The further properties at work *)

(** X1 at work: a tuple of two positions. *)
Lemma convert2sequence_fixed_point_witness :
  let l := [PInt 1; PInt 2] in
  List.length l = 2%nat /\
  Forall (fun x => isinstance x int = true) l /\
  (forall name', convert2sequence (PList l) 2 name' int = Return l) /\
  (forall name', convert2sequence (PTuple l) 2 name' int = Return l).
Proof.
  cbv zeta.
  apply (convert2sequence_fixed_point (PTuple [PInt 1; PInt 2]) 2 "position" int).
  reflexivity.
Defined.

(** X2 at work: one position for two series. *)
Lemma convert2sequence_errors_witness :
  let v := PList [PInt 1] in
  let e := ParamLength "position" int 2 1 in
  isinstance v int = false /\
  ((exists items,
       seq_items v = Some items /\ List.length items <> 2%nat /\
       e = ParamLength "position" int 2 (List.length items)) \/
   (e = ParamType "position" int 2 /\
    (seq_items v = None \/
     exists items,
       seq_items v = Some items /\ List.length items = 2%nat /\
       Exists (fun x => isinstance x int = false) items))).
Proof.
  cbv zeta.
  apply (convert2sequence_errors (PList [PInt 1]) 2 "position" int).
  reflexivity.
Defined.

(** X5 at work: a colour and a width both of the wrong type; the
    colour comes first. *)
Lemma first_offender_reported_witness :
  let a :=
    set_param Plinewidth (PStr "thick")
      (set_param Pbox_color (PInt 3) (with_defaults (PInt 5) (PStr "a"))) in
  let e := ParamType "box_color" str 2 in
  run_add_boxplot (PArray samples) a fresh = (Raise e, fresh) /\
  (e = ParamType (param_name Pbox_color) (param_type Pbox_color) 2 \/
   exists len,
     e = ParamLength (param_name Pbox_color) (param_type Pbox_color) 2 len).
Proof.
  cbv zeta.
  apply (@first_offender_reported reference Matplotlib.surface samples 2
           (set_param Plinewidth (PStr "thick")
              (set_param Pbox_color (PInt 3)
                 (with_defaults (PInt 5) (PStr "a"))))
           Pbox_color (ParamType "box_color" str 2) fresh).
  - unfold ndim. simpl. lia.
  - reflexivity.
  - intros j [<- | [<- | []]]; eexists; reflexivity.
  - reflexivity.
Defined.

(** X7 at work: two rows at positions 1 and 2. *)
Lemma rows_in_order_witness :
  let d := {| shape := [2%nat; 2%nat]; flat := [0; 0; 1; 1]%float |} in
  let a :=
    with_defaults (PTuple [PInt 1; PInt 2]) (PTuple [PStr "a"; PStr "b"]) in
  let s :=
    mk_series 2 [PInt 1; PInt 2] [PStr "a"; PStr "b"]
      (repeat (PStr "black") 2) (repeat (PStr "red") 2) (repeat (PInt 2) 2)
      (repeat (PBool true) 2) (repeat (PBool true) 2)
      (repeat (PBool false) 2) in
  run_add_boxplot (PArray d) a fresh =
    for_range (ser_N s)
      (fun index =>
         run_add_boxplot (PArray (subarray d index)) (row_args s index))
      fresh /\
  shape0 d = Return (ser_N s) /\
  forall index, (index < ser_N s)%nat ->
    ndim (subarray d index) = 1%nat /\ scalar_args (row_args s index).
Proof.
  cbv zeta.
  apply (@rows_in_order reference Matplotlib.surface
           {| shape := [2%nat; 2%nat]; flat := [0; 0; 1; 1]%float |}
           (with_defaults (PTuple [PInt 1; PInt 2])
              (PTuple [PStr "a"; PStr "b"]))).
  - reflexivity.
  - reflexivity.
Defined.

(** X8 at work: an average colour that matplotlib does not know, after
    the box and the four whisker segments. *)
Lemma raising_series_witness :
  let a :=
    set_param Paverage_color (PStr "notacolor")
      (with_defaults (PInt 5) (PStr "a")) in
  let e := Foreign ValueError "is not a valid value for color" in
  let self' := snd (run_add_boxplot (PArray samples) a fresh) in
  List.length (ax self') = 5%nat /\
  exists calls,
    self' = drawn fresh calls /\
    Forall (fun c => is_tick_call c = false) calls /\
    ((calls = [] /\
      (validate (PArray samples) a = Raise e \/
       @stats reference (flat samples) = Raise e \/
       (e = OutOfRange /\ shape samples = [0%nat]) \/
       (e = IntTooLarge /\
        exists s p,
          validate (PArray samples) a = Return (samples, s) /\
          first_as (ser_position s) int_value = Return p /\
          of_int p = Raise e))) \/
     (exists s mean std min_val max_val p l bc ac lw dw da pa c rest cls origin,
         validate (PArray samples) a = Return (samples, s) /\
         @stats reference (flat samples)
           = Return (mean, std, min_val, max_val) /\
         heads s p l bc ac lw dw da pa /\
         series_calls p mean std min_val max_val bc ac lw dw da pa
           = calls ++ c :: rest /\
         Forall (fun c' => @refuses Matplotlib.surface c' = None) calls /\
         @refuses Matplotlib.surface c = Some (cls, origin) /\
         e = Foreign cls origin)).
Proof.
  cbv zeta. split; [vm_compute; reflexivity |].
  apply (@raising_series reference Matplotlib.surface samples
           (set_param Paverage_color (PStr "notacolor")
              (with_defaults (PInt 5) (PStr "a")))
           fresh
           (Foreign ValueError "is not a valid value for color")).
  - reflexivity.
  - vm_compute. reflexivity.
Defined.

(** X9 at work: two rows, the average colour of the second unknown to
    matplotlib; row 0 is drawn with its tick, row 1 stops after its box
    and whiskers. *)
Lemma rows_before_failure_witness :
  let d := {| shape := [2%nat; 2%nat]; flat := [0; 0; 1; 1]%float |} in
  let a :=
    set_param Paverage_color (PTuple [PStr "red"; PStr "notacolor"])
      (with_defaults (PTuple [PInt 1; PInt 2])
         (PTuple [PStr "a"; PStr "b"])) in
  let s :=
    mk_series 2 [PInt 1; PInt 2] [PStr "a"; PStr "b"]
      (repeat (PStr "black") 2) [PStr "red"; PStr "notacolor"]
      (repeat (PInt 2) 2) (repeat (PBool true) 2) (repeat (PBool true) 2)
      (repeat (PBool false) 2) in
  let e := Foreign ValueError "is not a valid value for color" in
  let self' := snd (run_add_boxplot (PArray d) a fresh) in
  List.length (ax self') = 13%nat /\
  current_positions self' = [1] /\
  exists k self1 calls,
    (k < ser_N s)%nat /\
    for_range k
      (fun index =>
         run_add_boxplot (PArray (subarray d index)) (row_args s index))
      fresh = (Return tt, self1) /\
    run_add_boxplot (PArray (subarray d k)) (row_args s k) self1
      = (Raise e, self') /\
    self' = drawn self1 calls /\
    Forall (fun c => is_tick_call c = false) calls /\
    (calls = [] \/ exists cls origin, e = Foreign cls origin).
Proof.
  cbv zeta. split; [vm_compute; reflexivity |].
  split; [vm_compute; reflexivity |].
  apply (@rows_before_failure reference Matplotlib.surface
           {| shape := [2%nat; 2%nat]; flat := [0; 0; 1; 1]%float |}
           (set_param Paverage_color (PTuple [PStr "red"; PStr "notacolor"])
              (with_defaults (PTuple [PInt 1; PInt 2])
                 (PTuple [PStr "a"; PStr "b"])))).
  - reflexivity.
  - reflexivity.
  - vm_compute. reflexivity.
Defined.

(** X10 at work: samples 1 and 3 at position 5 with the default
    style. *)
Lemma single_series_drawn_witness :
  run_add_boxplot (PArray samples) (with_defaults (PInt 5) (PStr "a")) fresh =
  match @stats reference (flat samples) with
  | Raise e => (Raise e, fresh)
  | Return (mean, std, min_val, max_val) =>
      match of_int 5 with
      | Raise e => (Raise e, fresh)
      | Return x =>
          match @accepted_prefix Matplotlib.surface
                  (box_call 5 mean std "black" 2
                   :: when true
                        (whisker_calls 5 mean std min_val max_val "black" 2)
                   ++ when true
                        [plot (at_float (fsub x f0_1))
                           (at_float (fadd x f0_1)) mean mean "red" 2]
                   ++ when false [text (fadd x f0_2) mean mean "red"])
          with
          | (calls, None) => (Return tt, registered (drawn fresh calls) 5 "a")
          | (calls, Some e) => (Raise e, drawn fresh calls)
          end
      end
  end.
Proof.
  apply (@single_series_drawn reference Matplotlib.surface samples 1
           (with_defaults (PInt 5) (PStr "a"))
           5 "a"%string "black"%string "red"%string 2 true true false fresh);
    reflexivity.
Defined.

(** X11 at work: a second series at position 3, labelled anew. *)
Lemma known_position_pushes_nothing_witness :
  let self' :=
    snd (run_add_boxplot (PArray samples)
           (with_defaults (PInt 3) (PStr "other")) after_3) in
  exists calls,
    ax self' = ax after_3 ++ calls /\
    Forall (fun c => is_tick_call c = false) calls /\
    last_xticks (ax self') = last_xticks (ax after_3) /\
    last_xticklabels (ax self') = last_xticklabels (ax after_3) /\
    current_positions self' = current_positions after_3 /\
    current_ticklabels self' = current_ticklabels after_3.
Proof.
  cbv zeta.
  apply (@known_position_pushes_nothing reference Matplotlib.surface samples
           (with_defaults (PInt 3) (PStr "other")) 3 after_3 (Return tt)).
  - reflexivity.
  - reflexivity.
  - left. reflexivity.
  - vm_compute. reflexivity.
Defined.

(** X12 at work: an array of shape (2, 0). *)
Lemma rows_without_columns_witness :
  run_add_boxplot (PArray {| shape := [2%nat; 0%nat]; flat := [] |})
    (with_defaults (PInt 1) (PStr "a")) fresh =
  match @stats reference [] with
  | Return _ => (Raise OutOfRange, fresh)
  | Raise e => (Raise e, fresh)
  end.
Proof.
  apply (@rows_without_columns reference Matplotlib.surface
           {| shape := [2%nat; 0%nat]; flat := [] |} 1%nat).
  - reflexivity.
  - apply with_defaults_scalar.
Defined.

(** X15 at work: positions 3 and 1 on a new renderer, in both orders. *)
Lemma ticks_independent_of_order_witness :
  let a3 := with_defaults (PInt 3) (PStr "c") in
  let a1 := with_defaults (PInt 1) (PStr "a") in
  let s1 := snd (run_add_boxplot (PArray samples) a1 fresh) in
  let s13 := snd (run_add_boxplot (PArray samples) a3 s1) in
  last_xticks (ax after_3_1) = last_xticks (ax s13) /\
  last_xticklabels (ax after_3_1) = last_xticklabels (ax s13) /\
  Permutation
    (combine (current_positions after_3_1) (current_ticklabels after_3_1))
    (combine (current_positions s13) (current_ticklabels s13)).
Proof.
  cbv zeta.
  apply (@ticks_independent_of_order reference Matplotlib.surface fresh
           samples (with_defaults (PInt 3) (PStr "c")) 3 "c"%string
           samples (with_defaults (PInt 1) (PStr "a")) 1 "a"%string
           after_3 after_3_1
           (snd (run_add_boxplot (PArray samples)
                   (with_defaults (PInt 1) (PStr "a")) fresh))).
  - apply (@reachable_init reference Matplotlib.surface sample_figure
             default_ax_location).
    reflexivity.
  - reflexivity.
  - reflexivity.
  - reflexivity.
  - reflexivity.
  - reflexivity.
  - reflexivity.
  - discriminate.
  - vm_compute. reflexivity.
  - vm_compute. reflexivity.
  - vm_compute. reflexivity.
  - vm_compute. reflexivity.
Defined.
